(** * etl.py: the [dp013] scoring transform and its load wrapper

    A shallow embedding of [src/etl.py].  Python values that can sit in a
    pandas cell are an inductive type, exceptions are explicit results, and
    the calls to the object store and to the warehouse go through a record
    of oracles while every such call is logged in a trace of events. *)

From Stdlib Require Import ZArith List String Bool Lia Floats.SpecFloat DecimalString.
Import ListNotations.

Local Open Scope string_scope.
Local Open Scope Z_scope.

(** ** Python values and exceptions *)

(** What a cell of a frame produced by [pd.read_csv] holds once
    [Series.apply] hands it to a Python function: an [int], a [bool], a
    [float] (binary64, with NaN for a missing field) or a [str].  [None] is
    kept for frames built by hand. *)
Inductive pyval : Type :=
| PyInt (z : Z)
| PyBool (b : bool)
| PyFloat (f : spec_float)
| PyStr (s : string)
| PyNone.

Inductive pyexn : Type :=
| KeyError (key : string)
| TypeError
| ServiceError (msg : string).

(** Outcome of an expression: a value or a raised exception. *)
Inductive result (A : Type) : Type :=
| Ok (a : A)
| Raise (e : pyexn).
Arguments Ok {A} a.
Arguments Raise {A} e.

Module Res.
Definition bind {A B} (r : result A) (k : A -> result B) : result B :=
  match r with
  | Ok a => k a
  | Raise e => Raise e
  end.
End Res.

Declare Scope res_scope.
Delimit Scope res_scope with res.
Notation "x <- c ;; k" := (Res.bind c (fun x => k))
  (at level 61, c at next level, right associativity) : res_scope.

(** ** Comparison against an [int] literal *)

Definition prec64 : Z := 53.
Definition emax64 : Z := 1024.

(** [PyLong_AsDouble]: the literals of [dp013] are far below [2^53], so the
    conversion is exact. *)
Definition float_of_int (c : Z) : spec_float :=
  binary_normalize prec64 emax64 c 0 false.

(** [v <= c] for an [int] literal [c].  [bool] is a subclass of [int];
    a [float] is compared as a double; [str] and [None] do not order
    against [int]. *)
Definition le_int (v : pyval) (c : Z) : result bool :=
  match v with
  | PyInt z => Ok (z <=? c)
  | PyBool b => Ok (Z.b2z b <=? c)
  | PyFloat f => Ok (SFleb f (float_of_int c))
  | PyStr _ | PyNone => Raise TypeError
  end.

(** [c < v] for an [int] literal [c]; for a float the reflected
    [float.__gt__] answers. *)
Definition int_lt (c : Z) (v : pyval) : result bool :=
  match v with
  | PyInt z => Ok (c <? z)
  | PyBool b => Ok (c <? Z.b2z b)
  | PyFloat f => Ok (SFltb (float_of_int c) f)
  | PyStr _ | PyNone => Raise TypeError
  end.

(** The chained comparison [lo < v <= hi], that is [lo < v and v <= hi]:
    the second test runs only when the first holds. *)
Definition between (lo : Z) (v : pyval) (hi : Z) : result bool :=
  (b <- int_lt lo v ;;
   if b then le_int v hi else Ok false)%res.

(** ** The transform *)

Definition dp013 (resolution_time : pyval) : result pyval :=
  (b1 <- le_int resolution_time 1800 ;;
   if b1 then Ok (PyInt 10)
   else
     b2 <- between 1800 resolution_time 7200 ;;
     if b2 then Ok (PyInt 7)
     else
       b3 <- between 7200 resolution_time 10800 ;;
       if b3 then Ok (PyInt 5)
       else Ok (PyInt 0))%res.

(** ** Frames *)

Definition Series : Type := list pyval.

(** A [pd.DataFrame]: the length of its index and its columns in order.
    [read_csv] hands out frames whose column labels are pairwise distinct
    and whose columns all have the length of the index. *)
Record DataFrame : Type := mkDataFrame {
  index_len : nat;
  columns : list (string * Series)
}.

(** Every column is as long as the index, as in every frame pandas builds. *)
Definition aligned (df : DataFrame) : Prop :=
  Forall (fun kc => List.length (snd kc) = index_len df) (columns df).

(** [len(df)] *)
Definition len (df : DataFrame) : Z := Z.of_nat (index_len df).

(** [df.empty]: some axis has length zero. *)
Definition empty (df : DataFrame) : bool :=
  Nat.eqb (index_len df) 0 || Nat.eqb (List.length (columns df)) 0.

Fixpoint lookup (key : string) (cols : list (string * Series)) : option Series :=
  match cols with
  | [] => None
  | (k, s) :: rest => if String.eqb k key then Some s else lookup key rest
  end.

(** [df[key]] *)
Definition getitem (df : DataFrame) (key : string) : result Series :=
  match lookup key (columns df) with
  | Some s => Ok s
  | None => Raise (KeyError key)
  end.

Fixpoint assign (key : string) (s : Series) (cols : list (string * Series))
  : list (string * Series) :=
  match cols with
  | [] => [(key, s)]
  | (k, s') :: rest =>
      if String.eqb k key then (k, s) :: rest else (k, s') :: assign key s rest
  end.

(** [df[key] = s]: an existing column is overwritten where it stands, a new
    one goes last. *)
Definition setitem (df : DataFrame) (key : string) (s : Series) : DataFrame :=
  mkDataFrame (index_len df) (assign key s (columns df)).

(** [s.apply(func)]: [func] on each cell from the first to the last; the
    first exception ends the call. *)
Fixpoint apply (func : pyval -> result pyval) (s : Series) : result Series :=
  match s with
  | [] => Ok []
  | v :: rest =>
      (y <- func v ;;
       ys <- apply func rest ;;
       Ok (y :: ys))%res
  end.

(** The statement [df['DP013'] = df['calendar_duration'].apply(dp013)] of
    the script. *)
Definition transform_step (df : DataFrame) : result DataFrame :=
  (s <- getitem df "calendar_duration" ;;
   d <- apply dp013 s ;;
   Ok (setitem df "DP013" d))%res.

(** ** The outside world *)

(** What leaves the process.  Only [Print] stays local; the other events are
    requests to the object store or to the warehouse. *)
Inductive event : Type :=
| Print (line : string)
| StorageClient
| Download (bucket_name file_name : string)
| BigQueryClient (project : string)
| LoadTable (df : DataFrame) (destination write_disposition : string)
| JobResult (destination : string).

Definition is_network (ev : event) : bool :=
  match ev with
  | Print _ => false
  | _ => true
  end.

(** The services the script talks to, as oracles.  Each may raise. *)
Record Cloud : Type := mkCloud {
  storage_Client : result unit;
  download_as_bytes : string -> string -> result string;
  read_csv : string -> result DataFrame;
  bigquery_Client : string -> result unit;
  load_table_from_dataframe : DataFrame -> string -> string -> result unit;
  job_result : DataFrame -> string -> string -> result unit;
  output_rows : DataFrame -> string -> string -> option Z
}.

(** A run: the events so far, then a value or the exception that ended it. *)
Definition io (A : Type) : Type := list event * result A.

Module IO.
Definition ret {A} (a : A) : io A := ([], Ok a).
Definition bind {A B} (m : io A) (k : A -> io B) : io B :=
  match m with
  | (t, Ok a) => let (t', r) := k a in ((t ++ t')%list, r)
  | (t, Raise e) => (t, Raise e)
  end.
Definition emit (ev : event) : io unit := ([ev], Ok tt).
Definition call {A} (ev : event) (r : result A) : io A := ([ev], r).
Definition lift {A} (r : result A) : io A := ([], r).
End IO.

Declare Scope io_scope.
Delimit Scope io_scope with io.
Notation "x <- c ;; k" := (IO.bind c (fun x => k))
  (at level 61, c at next level, right associativity) : io_scope.
Notation "c ;; k" := (IO.bind c (fun _ => k))
  (at level 61, right associativity) : io_scope.

Definition trace {A} (m : io A) : list event := fst m.
Definition outcome {A} (m : io A) : result A := snd m.

(** [str(n)] for an [int]. *)
Definition str_int (n : Z) : string := NilZero.string_of_int (Z.to_int n).

Definition str_bool (b : bool) : string := if b then "True" else "False".

Definition get_data_from_gcs (w : Cloud) (bucket_name file_name : string)
  : io DataFrame :=
  (IO.call StorageClient (storage_Client w) ;;
   content <- IO.call (Download bucket_name file_name)
                      (download_as_bytes w bucket_name file_name) ;;
   df <- IO.lift (read_csv w content) ;;
   IO.emit (Print ("Loaded " ++ str_int (len df) ++ " rows from gs://"
                   ++ bucket_name ++ "/" ++ file_name)) ;;
   IO.ret df)%io.

(** The notice of the early return, with the bytes of the source file. *)
Definition empty_notice : string := "DataFrame is empty â€” nothing to load.".

(** [x or y] on an optional [int]: [None] and [0] are falsy. *)
Definition or_else (x : option Z) (y : Z) : Z :=
  match x with
  | Some n => if n =? 0 then y else n
  | None => y
  end.

Definition load_df_to_bq (w : Cloud) (df : option DataFrame)
    (project dataset table write_disposition : string) : io (bool * Z) :=
  match df with
  | Some d =>
      if empty d then
        (IO.emit (Print empty_notice) ;;
         IO.ret (true, 0))%io
      else
        let destination := project ++ "." ++ dataset ++ "." ++ table in
        (IO.call (BigQueryClient project) (bigquery_Client w project) ;;
         IO.call (LoadTable d destination write_disposition)
                 (load_table_from_dataframe w d destination write_disposition) ;;
         IO.call (JobResult destination)
                 (job_result w d destination write_disposition) ;;
         let rows := or_else (output_rows w d destination write_disposition) (len d) in
         IO.emit (Print ("Loaded " ++ str_int rows ++ " rows into " ++ destination)) ;;
         IO.ret (true, rows))%io
  | None =>
      (IO.emit (Print empty_notice) ;;
       IO.ret (true, 0))%io
  end.

(** The script under [if __name__ == "__main__"]. *)
Definition main (w : Cloud) : io unit :=
  let BUCKET := "test_bucket_shamik" in
  let FILE := "User_Journey.csv" in
  let PROJECT := "corded-reality-475215-f8" in
  let DATASET := "test_dataset" in
  let TABLE := "test_table3" in
  (df <- get_data_from_gcs w BUCKET FILE ;;
   df' <- IO.lift (transform_step df) ;;
   sr <- load_df_to_bq w (Some df') PROJECT DATASET TABLE "WRITE_APPEND" ;;
   IO.emit (Print ("Done: " ++ str_bool (fst sr) ++ " " ++ str_int (snd sr))))%io.

(** ** The numbers cells stand for *)

(** Order of the number a double stands for against an integer [c], computed
    exactly on integers: [Some Lt], [Some Eq] or [Some Gt], the infinities
    at the two ends, and [None] for NaN, which is not a number. *)
Definition float_cmp (f : spec_float) (c : Z) : option comparison :=
  match f with
  | S754_nan => None
  | S754_infinity s => Some (if s then Lt else Gt)
  | S754_zero _ => Some (0 ?= c)
  | S754_finite s m e =>
      let sm := if s then Z.neg m else Z.pos m in
      Some (if 0 <=? e then sm * 2 ^ e ?= c else sm ?= c * 2 ^ (- e))
  end.

Definition value_cmp (v : pyval) (c : Z) : option comparison :=
  match v with
  | PyInt z => Some (z ?= c)
  | PyBool b => Some (Z.b2z b ?= c)
  | PyFloat f => float_cmp f c
  | PyStr _ | PyNone => None
  end.

(** [v] is a number and that number is at most [c]. *)
Definition num_le (v : pyval) (c : Z) : Prop :=
  value_cmp v c = Some Lt \/ value_cmp v c = Some Eq.

(** [v] is a number and that number is above [c]. *)
Definition num_gt (v : pyval) (c : Z) : Prop :=
  value_cmp v c = Some Gt.

(** A float cell is a binary64 value. *)
Definition well_formed (v : pyval) : Prop :=
  match v with
  | PyFloat f => valid_binary prec64 emax64 f = true
  | _ => True
  end.

(** [int], [bool] and [float] cells; NaN is a [float]. *)
Definition numeric (v : pyval) : bool :=
  match v with
  | PyInt _ | PyBool _ | PyFloat _ => true
  | PyStr _ | PyNone => false
  end.

(** The three literals of [dp013]. *)
Definition literal (c : Z) : Prop := c = 1800 \/ c = 7200 \/ c = 10800.

(** Readings of an order: at most, and above. *)
Definition is_le (o : option comparison) : bool :=
  match o with
  | Some Lt | Some Eq => true
  | _ => false
  end.

Definition is_gt (o : option comparison) : bool :=
  match o with
  | Some Gt => true
  | _ => false
  end.

(** The scores [dp013] hands out. *)
Definition is_score (y : pyval) : Prop :=
  y = PyInt 0 \/ y = PyInt 5 \/ y = PyInt 7 \/ y = PyInt 10.

(** No event of a run went over the network. *)
Definition offline (t : list event) : Prop :=
  filter is_network t = [].

(** [df is None or df.empty] *)
Definition nothing_to_load (df : option DataFrame) : bool :=
  match df with
  | Some d => empty d
  | None => true
  end.

(** ** Frames and services to run the model on *)

Definition journey : DataFrame :=
  mkDataFrame 3
    [("user_id", [PyStr "u1"; PyStr "u2"; PyStr "u3"]);
     ("calendar_duration", [PyInt 500; PyInt 5000; PyInt 9000])].

Definition journey_no_duration : DataFrame :=
  mkDataFrame 2 [("user_id", [PyStr "u1"; PyStr "u2"])].

Definition journey_text : DataFrame :=
  mkDataFrame 2 [("calendar_duration", [PyInt 500; PyStr "n/a"])].

Definition journey_header_only : DataFrame :=
  mkDataFrame 0 [("user_id", []); ("calendar_duration", [])].

(** Services that answer every request; the object holds [df] and the load
    job reports [reported] rows. *)
Definition cloud_up (df : DataFrame) (reported : option Z) : Cloud :=
  mkCloud (Ok tt) (fun _ _ => Ok "") (fun _ => Ok df)
          (fun _ => Ok tt) (fun _ _ _ => Ok tt) (fun _ _ _ => Ok tt)
          (fun _ _ _ => reported).

(** Services that refuse every request. *)
Definition cloud_down : Cloud :=
  let no := ServiceError "unavailable" in
  mkCloud (Raise no) (fun _ _ => Raise no) (fun _ => Raise no)
          (fun _ => Raise no) (fun _ _ _ => Raise no) (fun _ _ _ => Raise no)
          (fun _ _ _ => None).

(** ** Vocabulary for the runs *)

(** The column labels of a frame, in order. *)
Definition labels (df : DataFrame) : list string := map fst (columns df).

Definition has_column (df : DataFrame) (key : string) : bool :=
  match lookup key (columns df) with
  | Some _ => true
  | None => false
  end.

Definition is_print (ev : event) : bool :=
  match ev with
  | Print _ => true
  | _ => false
  end.

(** Requests to the warehouse. *)
Definition is_warehouse (ev : event) : bool :=
  match ev with
  | BigQueryClient _ | LoadTable _ _ _ | JobResult _ => true
  | _ => false
  end.

(** Submissions of a load job. *)
Definition is_load_job (ev : event) : bool :=
  match ev with
  | LoadTable _ _ _ => true
  | _ => false
  end.

(** Nothing was printed during a run. *)
Definition silent (t : list event) : Prop := filter is_print t = [].

(** The constants of the script. *)
Definition script_bucket : string := "test_bucket_shamik".
Definition script_file : string := "User_Journey.csv".
Definition script_destination : string :=
  "corded-reality-475215-f8.test_dataset.test_table3".

(** The fetch of the script. *)
Definition fetch (w : Cloud) : io DataFrame :=
  get_data_from_gcs w script_bucket script_file.

(** ** Sanity checks of the model *)

Example dp013_0 : dp013 (PyInt 0) = Ok (PyInt 10).
Proof. reflexivity. Qed.
Example str_int_neg : str_int (-42) = "-42".
Proof. reflexivity. Qed.
Example str_int_0 : str_int 0 = "0".
Proof. reflexivity. Qed.
(** 1800.5, and the first double above 1800 *)
Example dp013_1800_5 :
  dp013 (PyFloat (S754_finite false (3601 * 2 ^ 41) (-42))) = Ok (PyInt 7).
Proof. reflexivity. Qed.
Example dp013_next_up_1800 :
  dp013 (PyFloat (S754_finite false (1800 * 2 ^ 42 + 1) (-42))) = Ok (PyInt 7).
Proof. reflexivity. Qed.
Example dp013_nan : dp013 (PyFloat S754_nan) = Ok (PyInt 0).
Proof. reflexivity. Qed.
Example dp013_true : dp013 (PyBool true) = Ok (PyInt 10).
Proof. reflexivity. Qed.
Example dp013_str : dp013 (PyStr "90 min") = Raise TypeError.
Proof. reflexivity. Qed.
Example main_journey :
  main (cloud_up journey None)
  = ([StorageClient;
      Download "test_bucket_shamik" "User_Journey.csv";
      Print "Loaded 3 rows from gs://test_bucket_shamik/User_Journey.csv";
      BigQueryClient "corded-reality-475215-f8";
      LoadTable (setitem journey "DP013" [PyInt 10; PyInt 7; PyInt 5])
                "corded-reality-475215-f8.test_dataset.test_table3"
                "WRITE_APPEND";
      JobResult "corded-reality-475215-f8.test_dataset.test_table3";
      Print "Loaded 3 rows into corded-reality-475215-f8.test_dataset.test_table3";
      Print "Done: True 3"],
     Ok tt).
Proof. reflexivity. Qed.

(** ** Doubles against the literals of [dp013] *)

Lemma digits2_pos_bounds (m : positive) :
  2 ^ (Z.pos (digits2_pos m) - 1) <= Z.pos m < 2 ^ Z.pos (digits2_pos m).
Proof.
  induction m as [p IH | p IH | ]; simpl digits2_pos.
  - rewrite Pos2Z.inj_succ.
    replace (Z.succ (Z.pos (digits2_pos p)) - 1)
      with (Z.succ (Z.pos (digits2_pos p) - 1)) by lia.
    rewrite !Z.pow_succ_r by lia. lia.
  - rewrite Pos2Z.inj_succ.
    replace (Z.succ (Z.pos (digits2_pos p)) - 1)
      with (Z.succ (Z.pos (digits2_pos p) - 1)) by lia.
    rewrite !Z.pow_succ_r by lia. lia.
  - cbn. lia.
Qed.

Lemma bounded64_inv (m : positive) (e : Z) :
  bounded prec64 emax64 m e = true ->
  Z.pos m < 2 ^ 53 /\ -1074 <= e /\ (e = -1074 \/ 2 ^ 52 <= Z.pos m).
Proof.
  unfold bounded, canonical_mantissa, fexp, emin, prec64, emax64.
  intros H. apply andb_prop in H. destruct H as [H _].
  apply Z.eqb_eq in H.
  pose proof (digits2_pos_bounds m) as [Hlo Hhi].
  set (d := Z.pos (digits2_pos m)) in *.
  assert (Hd : 0 < d) by (unfold d; lia).
  assert (Hd53 : d <= 53) by lia.
  split.
  - apply Z.lt_le_trans with (2 ^ d); [exact Hhi|].
    apply Z.pow_le_mono_r; lia.
  - split; [lia|].
    destruct (Z.eq_dec e (-1074)) as [He | He]; [left; exact He | right].
    assert (d = 53) by lia. subst d.
    replace 52 with (Z.pos (digits2_pos m) - 1) by lia. exact Hlo.
Qed.

(** Integer facts behind the comparison, with the powers of two kept
    abstract. *)
Lemma neg_scaled_lt (a p c : Z) : a < 0 -> 0 < p -> 0 < c -> a * p < c.
Proof. intros. assert (a * p < 0) by (apply Z.mul_neg_pos; assumption). lia. Qed.

Lemma neg_lt_scaled (a p c : Z) : a < 0 -> 0 < p -> 0 < c -> a < c * p.
Proof. intros. assert (0 < c * p) by (apply Z.mul_pos_pos; assumption). lia. Qed.

Lemma below_scaled (m M B q : Z) :
  m < 2 * B -> B <= M -> 0 < B -> 2 <= q -> m < M * q.
Proof.
  intros Hm HM HB Hq.
  assert (M * 2 <= M * q) by (apply Z.mul_le_mono_nonneg_l; lia). lia.
Qed.

Lemma above_unscaled (m M B c p q : Z) :
  B <= m -> M < 2 * B -> M = c * p -> 0 < c -> 1 <= p -> 1 <= q ->
  2 <= p \/ 2 <= q -> c < m * q.
Proof.
  intros Hm HM Hc Hc0 Hp Hq [H2 | H2].
  - assert (c * 2 <= c * p) by (apply Z.mul_le_mono_nonneg_l; lia).
    assert (m * 1 <= m * q) by (apply Z.mul_le_mono_nonneg_l; lia). lia.
  - assert (c * 1 <= c * p) by (apply Z.mul_le_mono_nonneg_l; lia).
    assert (m * 2 <= m * q) by (apply Z.mul_le_mono_nonneg_l; lia). lia.
Qed.

Lemma above_scaled (m M B c x q : Z) :
  B <= m -> M < 2 * B -> M = c * (x * q) -> 0 < c -> 0 < x -> 2 <= q ->
  c * x < m.
Proof.
  intros Hm HM Hc Hc0 Hx Hq.
  assert (0 < c * x) by (apply Z.mul_pos_pos; assumption).
  assert (c * x * 2 <= c * x * q) by (apply Z.mul_le_mono_nonneg_l; lia).
  rewrite Z.mul_assoc in Hc. lia.
Qed.

Lemma pow2_split (a b : Z) : 0 <= a -> 0 <= b -> 2 ^ (a + b) = 2 ^ a * 2 ^ b.
Proof. intros. apply Z.pow_add_r; assumption. Qed.

Lemma pow2_pos (k : Z) : 0 <= k -> 0 < 2 ^ k.
Proof. intros. apply Z.pow_pos_nonneg; lia. Qed.

Lemma pow2_ge_2 (k : Z) : 1 <= k -> 2 <= 2 ^ k.
Proof.
  intros Hk. change 2 with (2 ^ 1) at 1. apply Z.pow_le_mono_r; lia.
Qed.

Section Literal.
(** An [int] literal [c] whose double is [M * 2^E] with a full mantissa. *)
Variables (c : Z) (M : positive) (E : Z).
Hypothesis c_double : float_of_int c = S754_finite false M E.
Hypothesis M_range : 2 ^ 52 <= Z.pos M < 2 * 2 ^ 52.
Hypothesis E_range : -1074 <= E <= 0.
Hypothesis c_exact : Z.pos M = c * 2 ^ (- E).

Lemma literal_pos : 0 < c.
Proof.
  pose proof (pow2_pos (- E) ltac:(lia)) as Hp.
  destruct (Z.lt_trichotomy c 0) as [Hc | [Hc | Hc]]; [ | | exact Hc].
  - assert (c * 2 ^ (- E) < 0) by (apply Z.mul_neg_pos; assumption). lia.
  - subst c. rewrite Z.mul_0_l in c_exact. lia.
Qed.

(** The comparison of doubles that CPython runs agrees with the exact
    order of the numbers. *)
Lemma SFcompare_literal (f : spec_float) :
  valid_binary prec64 emax64 f = true ->
  SFcompare f (float_of_int c) = float_cmp f c.
Proof.
  pose proof literal_pos as Hc0.
  intros Hv. rewrite c_double.
  destruct f as [s | s | | s m e]; unfold SFcompare, float_cmp;
    cbv beta iota zeta; try reflexivity.
  - f_equal. symmetry. apply Z.compare_lt_iff. exact Hc0.
  - unfold valid_binary in Hv. apply bounded64_inv in Hv.
    destruct Hv as (Hm & He & Hn).
    change (2 ^ 53) with (2 * 2 ^ 52) in Hm.
    remember (2 ^ 52) as B eqn:HB.
    assert (HB0 : 0 < B) by (subst B; reflexivity).
    clear HB c_double.
    f_equal. destruct s.
    + symmetry. destruct (0 <=? e) eqn:He0.
      * apply Z.compare_lt_iff. apply Z.leb_le in He0.
        apply neg_scaled_lt; [reflexivity | apply pow2_pos; lia | exact Hc0].
      * apply Z.compare_lt_iff. apply Z.leb_gt in He0.
        apply neg_lt_scaled; [reflexivity | apply pow2_pos; lia | exact Hc0].
    + destruct (Z.compare_spec e E) as [Heq | Hlt | Hgt].
      * subst e.
        change (Pos.compare_cont Eq m M) with (Z.pos m ?= Z.pos M).
        rewrite c_exact.
        destruct (0 <=? E) eqn:HE0; [ | reflexivity].
        apply Z.leb_le in HE0. assert (HE : E = 0) by lia.
        rewrite HE. change (- 0) with 0.
        rewrite Z.pow_0_r, !Z.mul_1_r. reflexivity.
      * assert (He0 : (0 <=? e) = false) by (apply Z.leb_gt; lia).
        rewrite He0. symmetry. apply Z.compare_lt_iff.
        replace (- e) with (- E + (E - e)) by lia.
        rewrite pow2_split by lia. rewrite Z.mul_assoc, <- c_exact.
        apply below_scaled with (B := B);
          [exact Hm | apply M_range | exact HB0 | apply pow2_ge_2; lia].
      * destruct Hn as [Hn | Hn]; [lia|].
        symmetry. destruct (0 <=? e) eqn:He0.
        -- apply Z.leb_le in He0. apply Z.compare_gt_iff.
           apply above_unscaled with (M := Z.pos M) (B := B) (p := 2 ^ (- E));
             [ exact Hn | apply M_range | exact c_exact | exact Hc0
             | pose proof (pow2_pos (- E) ltac:(lia)); lia
             | pose proof (pow2_pos e He0); lia
             | ].
           destruct (Z.eq_dec e 0) as [Hz | Hz].
           ++ left. apply pow2_ge_2. lia.
           ++ right. apply pow2_ge_2. lia.
        -- apply Z.leb_gt in He0. apply Z.compare_gt_iff.
           apply above_scaled with (M := Z.pos M) (B := B) (q := 2 ^ (e - E));
             [ exact Hn | apply M_range | | exact Hc0
             | apply pow2_pos; lia | apply pow2_ge_2; lia ].
           rewrite <- pow2_split by lia.
           replace (- e + (e - E)) with (- E) by lia. exact c_exact.
Qed.
End Literal.

Lemma SFcompare_lit (c : Z) (f : spec_float) :
  literal c ->
  valid_binary prec64 emax64 f = true ->
  SFcompare f (float_of_int c) = float_cmp f c.
Proof.
  intros [-> | [-> | ->]] Hv.
  - apply (SFcompare_literal 1800 (1800 * 2 ^ 42)%positive (-42));
      [reflexivity | split; [discriminate | reflexivity] | lia | reflexivity | exact Hv].
  - apply (SFcompare_literal 7200 (7200 * 2 ^ 40)%positive (-40));
      [reflexivity | split; [discriminate | reflexivity] | lia | reflexivity | exact Hv].
  - apply (SFcompare_literal 10800 (10800 * 2 ^ 39)%positive (-39));
      [reflexivity | split; [discriminate | reflexivity] | lia | reflexivity | exact Hv].
Qed.

(** [SFcompare] with its arguments exchanged. *)
Lemma SFcompare_swap (x y : spec_float) :
  SFcompare x y = option_map CompOpp (SFcompare y x).
Proof.
  destruct x as [sx | sx | | sx mx ex], y as [sy | sy | | sy my ey];
    unfold SFcompare; cbv beta iota zeta; simpl option_map;
    try reflexivity;
    try (destruct sx; reflexivity);
    try (destruct sy; reflexivity);
    try (destruct sx, sy; reflexivity).
  f_equal.
  destruct sx, sy; try reflexivity;
    rewrite (Z.compare_antisym ex ey);
    destruct (ex ?= ey); simpl CompOpp; try reflexivity;
    change (Pos.compare_cont Eq mx my) with (Pos.compare mx my);
    change (Pos.compare_cont Eq my mx) with (Pos.compare my mx);
    rewrite (Pos.compare_antisym my mx);
    destruct (Pos.compare my mx); reflexivity.
Qed.

(** ** What the two comparisons of [dp013] compute *)

Lemma le_int_spec (v : pyval) (c : Z) :
  literal c -> well_formed v -> numeric v = true ->
  le_int v c = Ok (is_le (value_cmp v c)).
Proof.
  intros Hc Hw Hn. destruct v as [z | b | f | s | ]; try discriminate.
  - unfold le_int, value_cmp, is_le, Z.leb. destruct (z ?= c); reflexivity.
  - unfold le_int, value_cmp, is_le, Z.leb.
    destruct (Z.b2z b ?= c); reflexivity.
  - unfold le_int, value_cmp, SFleb. rewrite (SFcompare_lit c f Hc Hw).
    destruct (float_cmp f c) as [[ | | ] | ]; reflexivity.
Qed.

Lemma int_lt_spec (c : Z) (v : pyval) :
  literal c -> well_formed v -> numeric v = true ->
  int_lt c v = Ok (is_gt (value_cmp v c)).
Proof.
  intros Hc Hw Hn. destruct v as [z | b | f | s | ]; try discriminate.
  - unfold int_lt, value_cmp, is_gt, Z.ltb. rewrite (Z.compare_antisym z c).
    destruct (z ?= c); reflexivity.
  - unfold int_lt, value_cmp, is_gt, Z.ltb.
    rewrite (Z.compare_antisym (Z.b2z b) c).
    destruct (Z.b2z b ?= c); reflexivity.
  - unfold int_lt, value_cmp, SFltb.
    rewrite SFcompare_swap, (SFcompare_lit c f Hc Hw).
    destruct (float_cmp f c) as [[ | | ] | ]; reflexivity.
Qed.

Lemma value_cmp_numeric (v : pyval) (c : Z) (r : comparison) :
  value_cmp v c = Some r -> numeric v = true.
Proof. destruct v; simpl; intros H; try reflexivity; discriminate. Qed.

Lemma some_eq {A} (a b : A) : Some a = Some b -> a = b.
Proof. congruence. Qed.

Lemma compare_gt_mono (x c c' : Z) :
  c' <= c -> (x ?= c) = Gt -> (x ?= c') = Gt.
Proof.
  intros Hle H. apply Z.compare_gt_iff in H. apply Z.compare_gt_iff. lia.
Qed.

(** A number above [c] is above every smaller integer. *)
Lemma float_cmp_gt_mono (f : spec_float) (c c' : Z) :
  c' <= c -> float_cmp f c = Some Gt -> float_cmp f c' = Some Gt.
Proof.
  intros Hle. destruct f as [s | s | | s m e]; unfold float_cmp;
    cbv beta iota zeta; intros H; try exact H.
  - apply some_eq in H. f_equal. exact (compare_gt_mono 0 c c' Hle H).
  - apply some_eq in H. f_equal. destruct (0 <=? e) eqn:He.
    + exact (compare_gt_mono _ c c' Hle H).
    + apply Z.leb_gt in He.
      pose proof (pow2_pos (- e) ltac:(lia)) as Hp.
      apply (compare_gt_mono _ (c * 2 ^ (- e))); [ | exact H].
      apply Z.mul_le_mono_nonneg_r; lia.
Qed.

Lemma value_cmp_gt_mono (v : pyval) (c c' : Z) :
  c' <= c -> value_cmp v c = Some Gt -> value_cmp v c' = Some Gt.
Proof.
  intros Hle. destruct v as [z | b | f | s | ]; unfold value_cmp; intros H;
    try discriminate.
  - apply some_eq in H. f_equal. exact (compare_gt_mono z c c' Hle H).
  - apply some_eq in H. f_equal. exact (compare_gt_mono _ c c' Hle H).
  - exact (float_cmp_gt_mono f c c' Hle H).
Qed.

Lemma lit_1800 : literal 1800.
Proof. left. reflexivity. Qed.
Lemma lit_7200 : literal 7200.
Proof. right. left. reflexivity. Qed.
Lemma lit_10800 : literal 10800.
Proof. right. right. reflexivity. Qed.

(** [dp013] on a number, by the exact order of that number against the
    three literals. *)
Lemma dp013_by_order (v : pyval) :
  well_formed v -> numeric v = true ->
  dp013 v =
  Ok (PyInt
        (if is_le (value_cmp v 1800) then 10
         else if is_gt (value_cmp v 1800) && is_le (value_cmp v 7200) then 7
         else if is_gt (value_cmp v 7200) && is_le (value_cmp v 10800) then 5
         else 0)).
Proof.
  intros Hw Hn. unfold dp013, between.
  rewrite (le_int_spec v 1800 lit_1800 Hw Hn),
          (le_int_spec v 7200 lit_7200 Hw Hn),
          (le_int_spec v 10800 lit_10800 Hw Hn),
          (int_lt_spec 1800 v lit_1800 Hw Hn),
          (int_lt_spec 7200 v lit_7200 Hw Hn).
  unfold Res.bind.
  destruct (is_le (value_cmp v 1800)); [reflexivity|].
  destruct (is_gt (value_cmp v 1800)); simpl andb.
  - destruct (is_le (value_cmp v 7200)); [reflexivity|].
    destruct (is_gt (value_cmp v 7200)); simpl andb; [|reflexivity].
    destruct (is_le (value_cmp v 10800)); reflexivity.
  - destruct (is_gt (value_cmp v 7200)); simpl andb; [|reflexivity].
    destruct (is_le (value_cmp v 10800)); reflexivity.
Qed.

(** ** The four buckets *)

(** C1.  Every input that is a number at most 1800, the negative ones and
    minus infinity among them, is scored 10 by [dp013]; so are 0 and 1800
    themselves. *)
Theorem dp013_at_most_1800 (r : pyval) :
  well_formed r -> num_le r 1800 -> dp013 r = Ok (PyInt 10).
Proof.
  intros Hw Hle.
  assert (Hn : numeric r = true)
    by (destruct Hle as [H | H]; exact (value_cmp_numeric _ _ _ H)).
  rewrite (dp013_by_order r Hw Hn).
  destruct Hle as [H | H]; rewrite H; reflexivity.
Qed.

(** C2.  Every input that is a number above 1800 and at most 7200 is scored
    7; the upper end 7200 is inside the bucket, 1801 is its first integer. *)
Theorem dp013_1800_to_7200 (r : pyval) :
  well_formed r -> num_gt r 1800 -> num_le r 7200 -> dp013 r = Ok (PyInt 7).
Proof.
  intros Hw Hgt Hle.
  rewrite (dp013_by_order r Hw (value_cmp_numeric _ _ _ Hgt)).
  unfold num_gt in Hgt. rewrite Hgt.
  destruct Hle as [H | H]; rewrite H; reflexivity.
Qed.

(** C3.  Every input that is a number above 7200 and at most 10800 is scored
    5; the upper end 10800 is inside the bucket, 7201 is its first
    integer. *)
Theorem dp013_7200_to_10800 (r : pyval) :
  well_formed r -> num_gt r 7200 -> num_le r 10800 -> dp013 r = Ok (PyInt 5).
Proof.
  intros Hw Hgt Hle.
  rewrite (dp013_by_order r Hw (value_cmp_numeric _ _ _ Hgt)).
  unfold num_gt in Hgt.
  rewrite (value_cmp_gt_mono r 7200 1800 ltac:(lia) Hgt), Hgt.
  destruct Hle as [H | H]; rewrite H; reflexivity.
Qed.

(** C4.  Every input that is a number above 10800, plus infinity included,
    is scored 0. *)
Theorem dp013_above_10800 (r : pyval) :
  well_formed r -> num_gt r 10800 -> dp013 r = Ok (PyInt 0).
Proof.
  intros Hw Hgt.
  rewrite (dp013_by_order r Hw (value_cmp_numeric _ _ _ Hgt)).
  unfold num_gt in Hgt.
  rewrite (value_cmp_gt_mono r 10800 1800 ltac:(lia) Hgt),
          (value_cmp_gt_mono r 10800 7200 ltac:(lia) Hgt), Hgt.
  reflexivity.
Qed.

Lemma dp013_at_most_1800_witness :
  (well_formed (PyInt 1800) /\ num_le (PyInt 1800) 1800 /\
   dp013 (PyInt 1800) = Ok (PyInt 10)) /\
  dp013 (PyInt 0) = Ok (PyInt 10) /\
  dp013 (PyInt (-60)) = Ok (PyInt 10) /\
  dp013 (PyFloat (S754_finite true 4503599627370496 (-52))) = Ok (PyInt 10) /\
  dp013 (PyFloat (S754_infinity true)) = Ok (PyInt 10).
Proof.
  split; [split; [exact I | split; [right; reflexivity | ]] | ].
  - apply (dp013_at_most_1800 (PyInt 1800)); [exact I | right; reflexivity].
  - split; [ | split; [ | split]].
    + apply (dp013_at_most_1800 (PyInt 0)); [exact I | left; reflexivity].
    + apply (dp013_at_most_1800 (PyInt (-60))); [exact I | left; reflexivity].
    + apply (dp013_at_most_1800
               (PyFloat (S754_finite true 4503599627370496 (-52))));
        [reflexivity | left; reflexivity].
    + apply (dp013_at_most_1800 (PyFloat (S754_infinity true)));
        [reflexivity | left; reflexivity].
Defined.

Lemma dp013_1800_to_7200_witness :
  (well_formed (PyInt 7200) /\ num_gt (PyInt 7200) 1800 /\
   num_le (PyInt 7200) 7200 /\ dp013 (PyInt 7200) = Ok (PyInt 7)) /\
  dp013 (PyInt 1801) = Ok (PyInt 7) /\
  dp013 (PyFloat (float_of_int 7200)) = Ok (PyInt 7).
Proof.
  split; [split; [exact I | split; [reflexivity | split; [right; reflexivity | ]]] | ].
  - apply (dp013_1800_to_7200 (PyInt 7200));
      [exact I | reflexivity | right; reflexivity].
  - split.
    + apply (dp013_1800_to_7200 (PyInt 1801));
        [exact I | reflexivity | left; reflexivity].
    + apply (dp013_1800_to_7200 (PyFloat (float_of_int 7200)));
        [reflexivity | reflexivity | right; reflexivity].
Defined.

Lemma dp013_7200_to_10800_witness :
  (well_formed (PyInt 10800) /\ num_gt (PyInt 10800) 7200 /\
   num_le (PyInt 10800) 10800 /\ dp013 (PyInt 10800) = Ok (PyInt 5)) /\
  dp013 (PyInt 7201) = Ok (PyInt 5) /\
  dp013 (PyFloat (float_of_int 10800)) = Ok (PyInt 5).
Proof.
  split; [split; [exact I | split; [reflexivity | split; [right; reflexivity | ]]] | ].
  - apply (dp013_7200_to_10800 (PyInt 10800));
      [exact I | reflexivity | right; reflexivity].
  - split.
    + apply (dp013_7200_to_10800 (PyInt 7201));
        [exact I | reflexivity | left; reflexivity].
    + apply (dp013_7200_to_10800 (PyFloat (float_of_int 10800)));
        [reflexivity | reflexivity | right; reflexivity].
Defined.

Lemma dp013_above_10800_witness :
  (well_formed (PyInt 10801) /\ num_gt (PyInt 10801) 10800 /\
   dp013 (PyInt 10801) = Ok (PyInt 0)) /\
  dp013 (PyInt 1000000) = Ok (PyInt 0) /\
  dp013 (PyFloat (S754_infinity false)) = Ok (PyInt 0).
Proof.
  split; [split; [exact I | split; [reflexivity | ]] | ].
  - apply (dp013_above_10800 (PyInt 10801)); [exact I | reflexivity].
  - split.
    + apply (dp013_above_10800 (PyInt 1000000)); [exact I | reflexivity].
    + apply (dp013_above_10800 (PyFloat (S754_infinity false)));
        [reflexivity | reflexivity].
Defined.

(** ** Columns of a frame *)

Lemma lookup_assign_same (key : string) (s : Series) (cols : list (string * Series)) :
  lookup key (assign key s cols) = Some s.
Proof.
  induction cols as [ | [k s'] rest IH]; simpl.
  - now rewrite String.eqb_refl.
  - destruct (String.eqb k key) eqn:Hk; simpl; rewrite Hk; [reflexivity | exact IH].
Qed.

Lemma lookup_assign_other (key key' : string) (s : Series)
    (cols : list (string * Series)) :
  key <> key' -> lookup key' (assign key s cols) = lookup key' cols.
Proof.
  intros Hne. induction cols as [ | [k s'] rest IH]; simpl.
  - apply String.eqb_neq in Hne. now rewrite Hne.
  - destruct (String.eqb k key) eqn:Hk; simpl.
    + apply String.eqb_eq in Hk. subst k.
      apply String.eqb_neq in Hne. now rewrite Hne.
    + destruct (String.eqb k key'); [reflexivity | exact IH].
Qed.

Lemma assign_assign (key : string) (s : Series) (cols : list (string * Series)) :
  assign key s (assign key s cols) = assign key s cols.
Proof.
  induction cols as [ | [k s'] rest IH]; simpl.
  - now rewrite String.eqb_refl.
  - destruct (String.eqb k key) eqn:Hk; simpl; rewrite Hk;
      [reflexivity | now rewrite IH].
Qed.

Lemma assign_not_nil (key : string) (s : Series) (cols : list (string * Series)) :
  Nat.eqb (List.length (assign key s cols)) 0 = false.
Proof.
  destruct cols as [ | [k s'] rest]; simpl; [reflexivity|].
  destruct (String.eqb k key); reflexivity.
Qed.

Lemma getitem_setitem_same (df : DataFrame) (key : string) (s : Series) :
  getitem (setitem df key s) key = Ok s.
Proof. unfold getitem, setitem. simpl. now rewrite lookup_assign_same. Qed.

Lemma getitem_setitem_other (df : DataFrame) (key key' : string) (s : Series) :
  key <> key' -> getitem (setitem df key s) key' = getitem df key'.
Proof.
  intros Hne. unfold getitem, setitem. simpl.
  now rewrite (lookup_assign_other key key' s (columns df) Hne).
Qed.

(** ** [apply], cell by cell *)

Lemma apply_cells (func : pyval -> result pyval) (s d : Series) :
  apply func s = Ok d ->
  List.length d = List.length s /\
  forall (i : nat) (r : pyval), nth_error s i = Some r ->
    exists y, func r = Ok y /\ nth_error d i = Some y.
Proof.
  revert d. induction s as [ | v rest IH]; intros d H; simpl in H.
  - injection H as <-. split; [reflexivity|].
    intros [ | i] r Hr; discriminate.
  - destruct (func v) as [y | e] eqn:Hv; simpl in H; [ | discriminate].
    destruct (apply func rest) as [ys | e] eqn:Hrest; simpl in H; [ | discriminate].
    injection H as <-. destruct (IH ys eq_refl) as [Hlen Hnth].
    split; [simpl; now rewrite Hlen|].
    intros [ | i] r Hr; simpl in Hr.
    + injection Hr as <-. exists y. split; [exact Hv | reflexivity].
    + exact (Hnth i r Hr).
Qed.

Lemma dp013_is_score (r y : pyval) : dp013 r = Ok y -> is_score y.
Proof.
  unfold dp013, between, le_int, int_lt, Res.bind, is_score.
  destruct r as [z | b | f | s | ]; cbv beta iota; try discriminate;
    repeat match goal with
           | |- context [if ?t then _ else _] => destruct t
           end;
    intros H; injection H as <-; auto.
Qed.

Lemma dp013_numeric_returns (r : pyval) :
  numeric r = true -> exists y, dp013 r = Ok y.
Proof.
  unfold dp013, between, le_int, int_lt, Res.bind.
  destruct r as [z | b | f | s | ]; cbv beta iota; try discriminate; intros _;
    repeat match goal with
           | |- context [if ?t then _ else _] => destruct t
           end;
    eexists; reflexivity.
Qed.

Lemma dp013_not_numeric_raises (r : pyval) :
  numeric r = false -> dp013 r = Raise TypeError.
Proof. destruct r; simpl numeric; intros H; try discriminate; reflexivity. Qed.

Lemma apply_numeric_returns (s : Series) :
  forallb numeric s = true -> exists d, apply dp013 s = Ok d.
Proof.
  induction s as [ | v rest IH]; simpl; intros H.
  - exists []. reflexivity.
  - apply andb_prop in H. destruct H as [Hv Hrest].
    destruct (dp013_numeric_returns v Hv) as [y Hy].
    destruct (IH Hrest) as [ys Hys].
    exists (y :: ys). rewrite Hy, Hys. reflexivity.
Qed.

Lemma apply_not_numeric_raises (s : Series) :
  forallb numeric s = false -> apply dp013 s = Raise TypeError.
Proof.
  induction s as [ | v rest IH]; simpl; intros H; [discriminate|].
  destruct (numeric v) eqn:Hv.
  - destruct (dp013_numeric_returns v Hv) as [y Hy]. rewrite Hy. simpl.
    rewrite (IH H). reflexivity.
  - rewrite (dp013_not_numeric_raises v Hv). reflexivity.
Qed.

(** ** The transform step *)

Lemma duration_is_not_score : "DP013" <> "calendar_duration".
Proof. discriminate. Qed.

Lemma transform_step_inv (df df' : DataFrame) :
  transform_step df = Ok df' ->
  exists s d,
    getitem df "calendar_duration" = Ok s /\
    apply dp013 s = Ok d /\
    df' = setitem df "DP013" d.
Proof.
  unfold transform_step. intros H.
  destruct (getitem df "calendar_duration") as [s | e]; simpl in H; [ | discriminate].
  destruct (apply dp013 s) as [d | e] eqn:Hd; simpl in H; [ | discriminate].
  injection H as <-. exists s, d. auto.
Qed.

Lemma lookup_aligned (df : DataFrame) (key : string) (s : Series) :
  aligned df -> getitem df key = Ok s -> List.length s = index_len df.
Proof.
  unfold aligned, getitem. generalize (index_len df) as n.
  induction (columns df) as [ | [k s'] rest IH]; intros n Ha H; simpl in H.
  - discriminate.
  - apply Forall_cons_iff in Ha. destruct Ha as [Hhd Htl].
    destruct (String.eqb k key).
    + injection H as <-. exact Hhd.
    + exact (IH n Htl H).
Qed.

(** C5.  After the transform step the frame has its rows and its
    [calendar_duration] column as before and a [DP013] column with a cell
    for every row, and in each row the [DP013] cell is [dp013] of the
    [calendar_duration] cell of that row, one of the scores 0, 5, 7, 10. *)
Theorem transform_step_DP013 (df df' : DataFrame) :
  transform_step df = Ok df' ->
  index_len df' = index_len df /\
  exists s d,
    getitem df "calendar_duration" = Ok s /\
    getitem df' "calendar_duration" = Ok s /\
    getitem df' "DP013" = Ok d /\
    List.length d = List.length s /\
    (aligned df -> List.length d = index_len df') /\
    forall (i : nat) (r : pyval), nth_error s i = Some r ->
      exists y, dp013 r = Ok y /\ nth_error d i = Some y /\ is_score y.
Proof.
  intros H. destruct (transform_step_inv df df' H) as (s & d & Hs & Hd & ->).
  split; [reflexivity|].
  exists s, d. destruct (apply_cells dp013 s d Hd) as [Hlen Hnth].
  split; [exact Hs | split; [ | split; [ | split; [exact Hlen | split]]]].
  - rewrite getitem_setitem_other by exact duration_is_not_score. exact Hs.
  - apply getitem_setitem_same.
  - intros Ha. rewrite Hlen. exact (lookup_aligned df _ s Ha Hs).
  - intros i r Hr. destruct (Hnth i r Hr) as (y & Hy & Hi).
    exists y. split; [exact Hy | split; [exact Hi | exact (dp013_is_score r y Hy)]].
Qed.

Lemma transform_step_DP013_witness :
  transform_step journey = Ok (setitem journey "DP013" [PyInt 10; PyInt 7; PyInt 5]) /\
  index_len (setitem journey "DP013" [PyInt 10; PyInt 7; PyInt 5]) = 3%nat.
Proof.
  split; [reflexivity|].
  exact (proj1 (transform_step_DP013 journey
                  (setitem journey "DP013" [PyInt 10; PyInt 7; PyInt 5])
                  eq_refl)).
Defined.

(** C7.  The transform step is idempotent: run on its own result it returns
    that result unchanged, so the [DP013] cells of the second run are those
    of the first. *)
Theorem transform_step_idempotent (df df' : DataFrame) :
  transform_step df = Ok df' ->
  transform_step df' = Ok df' /\
  getitem df' "DP013" = (s <- getitem df "calendar_duration" ;; apply dp013 s)%res.
Proof.
  intros H. destruct (transform_step_inv df df' H) as (s & d & Hs & Hd & ->).
  split.
  - unfold transform_step.
    rewrite getitem_setitem_other by exact duration_is_not_score.
    rewrite Hs. simpl. rewrite Hd. simpl. f_equal.
    unfold setitem. simpl. now rewrite assign_assign.
  - rewrite getitem_setitem_same, Hs. simpl. now rewrite Hd.
Qed.

Lemma transform_step_idempotent_witness :
  transform_step journey = Ok (setitem journey "DP013" [PyInt 10; PyInt 7; PyInt 5]) /\
  transform_step (setitem journey "DP013" [PyInt 10; PyInt 7; PyInt 5])
  = Ok (setitem journey "DP013" [PyInt 10; PyInt 7; PyInt 5]).
Proof.
  split; [reflexivity|].
  exact (proj1 (transform_step_idempotent journey
                  (setitem journey "DP013" [PyInt 10; PyInt 7; PyInt 5])
                  eq_refl)).
Defined.

(** ** Runs *)

Lemma outcome_bind_ok {A B} (m : io A) (k : A -> io B) (a : A) :
  outcome m = Ok a -> outcome (IO.bind m k) = outcome (k a).
Proof.
  destruct m as [t [a' | e]]; unfold outcome; simpl; intros H; [ | discriminate].
  injection H as ->. destruct (k a); reflexivity.
Qed.

Lemma outcome_bind_raise {A B} (m : io A) (k : A -> io B) (e : pyexn) :
  outcome m = Raise e -> outcome (IO.bind m k) = Raise e.
Proof.
  destruct m as [t [a | e']]; unfold outcome; simpl; intros H; [discriminate | ].
  injection H as ->. reflexivity.
Qed.

Lemma trace_bind_raise {A B} (m : io A) (k : A -> io B) (e : pyexn) :
  outcome m = Raise e -> trace (IO.bind m k) = trace m.
Proof.
  destruct m as [t [a | e']]; unfold outcome; simpl; intros H; [discriminate | reflexivity].
Qed.

Lemma trace_bind_ok {A B} (m : io A) (k : A -> io B) (a : A) :
  outcome m = Ok a -> trace (IO.bind m k) = (trace m ++ trace (k a))%list.
Proof.
  destruct m as [t [a' | e]]; unfold outcome; simpl; intros H; [ | discriminate].
  injection H as ->. destruct (k a); reflexivity.
Qed.

(** The early return of [load_df_to_bq]. *)
Lemma load_df_to_bq_short (w : Cloud) (df : option DataFrame)
    (project dataset table write_disposition : string) :
  nothing_to_load df = true ->
  load_df_to_bq w df project dataset table write_disposition
  = ([Print empty_notice], Ok (true, 0)).
Proof.
  unfold load_df_to_bq, nothing_to_load. destruct df as [d | ]; intros H.
  - rewrite H. reflexivity.
  - reflexivity.
Qed.

(** The run of [load_df_to_bq] when there are rows and the warehouse
    answers every request. *)
Lemma load_df_to_bq_served (w : Cloud) (d : DataFrame)
    (project dataset table write_disposition : string) :
  let destination := project ++ "." ++ dataset ++ "." ++ table in
  empty d = false ->
  bigquery_Client w project = Ok tt ->
  load_table_from_dataframe w d destination write_disposition = Ok tt ->
  job_result w d destination write_disposition = Ok tt ->
  outcome (load_df_to_bq w (Some d) project dataset table write_disposition)
  = Ok (true, or_else (output_rows w d destination write_disposition) (len d)).
Proof.
  intros destination He Hc Hl Hj. unfold load_df_to_bq. rewrite He.
  fold destination. rewrite Hc, Hl, Hj. reflexivity.
Qed.

(** C8.  With no frame or an empty one, [load_df_to_bq] returns
    [(True, 0)] whatever the services would answer, and nothing of its run
    goes over the network: no warehouse client, no load job. *)
Theorem load_df_to_bq_empty (w : Cloud) (df : option DataFrame)
    (project dataset table write_disposition : string) :
  nothing_to_load df = true ->
  outcome (load_df_to_bq w df project dataset table write_disposition)
  = Ok (true, 0) /\
  offline (trace (load_df_to_bq w df project dataset table write_disposition)).
Proof.
  intros H. rewrite (load_df_to_bq_short w df _ _ _ _ H).
  split; reflexivity.
Qed.

Lemma load_df_to_bq_empty_witness :
  nothing_to_load (Some journey_header_only) = true /\
  outcome (load_df_to_bq cloud_down (Some journey_header_only)
             "p" "d" "t" "WRITE_APPEND") = Ok (true, 0) /\
  outcome (load_df_to_bq cloud_down None "p" "d" "t" "WRITE_APPEND")
  = Ok (true, 0).
Proof.
  split; [reflexivity | split].
  - exact (proj1 (load_df_to_bq_empty cloud_down (Some journey_header_only)
                    "p" "d" "t" "WRITE_APPEND" eq_refl)).
  - exact (proj1 (load_df_to_bq_empty cloud_down None
                    "p" "d" "t" "WRITE_APPEND" eq_refl)).
Defined.

(** C10.  Whenever [load_df_to_bq] returns, the flag it returns is [True]:
    every failure of the warehouse ends the run with an exception. *)
Theorem load_df_to_bq_flag (w : Cloud) (df : option DataFrame)
    (project dataset table write_disposition : string)
    (success : bool) (rows : Z) :
  outcome (load_df_to_bq w df project dataset table write_disposition)
  = Ok (success, rows) ->
  success = true.
Proof.
  destruct (nothing_to_load df) eqn:Hn.
  - rewrite (load_df_to_bq_short w df _ _ _ _ Hn). unfold outcome. simpl.
    intros H. now injection H as <- _.
  - destruct df as [d | ]; [ | discriminate]. simpl in Hn.
    unfold load_df_to_bq. rewrite Hn.
    unfold outcome, IO.bind, IO.call, IO.emit, IO.ret.
    destruct (bigquery_Client w project); cbv beta iota; [ | discriminate].
    destruct (load_table_from_dataframe w d _ write_disposition);
      cbv beta iota; [ | discriminate].
    destruct (job_result w d _ write_disposition);
      cbv beta iota; [ | discriminate].
    unfold snd. intros H. now injection H as <- _.
Qed.

Lemma load_df_to_bq_flag_witness :
  outcome (load_df_to_bq (cloud_up journey (Some 3)) (Some journey)
             "p" "d" "t" "WRITE_APPEND") = Ok (true, 3) /\
  true = true.
Proof.
  split; [reflexivity|].
  exact (load_df_to_bq_flag (cloud_up journey (Some 3)) (Some journey)
           "p" "d" "t" "WRITE_APPEND" true 3 eq_refl).
Defined.

(** C6.  A frame of three rows whose [calendar_duration] cells are 500,
    5000 and 9000 gets the [DP013] cells 10, 7 and 5, and loading the
    result into a warehouse that accepts the job and reports the rows it
    was sent (or reports none) returns 3 rows. *)
Theorem scenario_three_rows (w : Cloud) (df : DataFrame)
    (project dataset table write_disposition : string) :
  let df' := setitem df "DP013" [PyInt 10; PyInt 7; PyInt 5] in
  let destination := project ++ "." ++ dataset ++ "." ++ table in
  index_len df = 3%nat ->
  getitem df "calendar_duration" = Ok [PyInt 500; PyInt 5000; PyInt 9000] ->
  bigquery_Client w project = Ok tt ->
  load_table_from_dataframe w df' destination write_disposition = Ok tt ->
  job_result w df' destination write_disposition = Ok tt ->
  (output_rows w df' destination write_disposition = None \/
   output_rows w df' destination write_disposition = Some (len df')) ->
  transform_step df = Ok df' /\
  getitem df' "DP013" = Ok [PyInt 10; PyInt 7; PyInt 5] /\
  outcome (load_df_to_bq w (Some df') project dataset table write_disposition)
  = Ok (true, 3).
Proof.
  intros df' destination Hlen Hs Hc Hl Hj Hrows.
  split; [ | split].
  - unfold transform_step. rewrite Hs. reflexivity.
  - apply getitem_setitem_same.
  - assert (He : empty df' = false).
    { unfold empty, df', setitem. simpl. rewrite Hlen, assign_not_nil. reflexivity. }
    rewrite (load_df_to_bq_served w df' project dataset table write_disposition
               He Hc Hl Hj).
    fold destination.
    assert (Hn : len df' = 3) by (unfold len, df', setitem; simpl; now rewrite Hlen).
    destruct Hrows as [Hr | Hr]; rewrite Hr; simpl or_else; rewrite Hn; reflexivity.
Qed.

Lemma scenario_three_rows_witness :
  transform_step journey
  = Ok (setitem journey "DP013" [PyInt 10; PyInt 7; PyInt 5]) /\
  getitem (setitem journey "DP013" [PyInt 10; PyInt 7; PyInt 5]) "DP013"
  = Ok [PyInt 10; PyInt 7; PyInt 5] /\
  outcome (load_df_to_bq (cloud_up journey (Some 3))
             (Some (setitem journey "DP013" [PyInt 10; PyInt 7; PyInt 5]))
             "corded-reality-475215-f8" "test_dataset" "test_table3"
             "WRITE_APPEND")
  = Ok (true, 3).
Proof.
  apply (scenario_three_rows (cloud_up journey (Some 3)) journey
           "corded-reality-475215-f8" "test_dataset" "test_table3"
           "WRITE_APPEND");
    [reflexivity | reflexivity | reflexivity | reflexivity | reflexivity
    | right; reflexivity].
Defined.

(** C9.  On a frame whose [calendar_duration] cells are all numbers the
    transform step returns a frame.  On a frame without that column it
    raises [KeyError], and on one where some cell of the column is not a
    number it raises [TypeError]; no frame comes out.  In the script the
    exception ends the run as it is, before anything is sent to the
    warehouse. *)
Theorem transform_step_errors :
  (forall (df : DataFrame) (s : Series),
      getitem df "calendar_duration" = Ok s ->
      forallb numeric s = true ->
      exists df', transform_step df = Ok df') /\
  (forall df : DataFrame,
      lookup "calendar_duration" (columns df) = None ->
      transform_step df = Raise (KeyError "calendar_duration")) /\
  (forall (df : DataFrame) (s : Series),
      getitem df "calendar_duration" = Ok s ->
      forallb numeric s = false ->
      transform_step df = Raise TypeError) /\
  (forall (w : Cloud) (df : DataFrame) (e : pyexn),
      outcome (get_data_from_gcs w "test_bucket_shamik" "User_Journey.csv")
      = Ok df ->
      transform_step df = Raise e ->
      outcome (main w) = Raise e /\
      trace (main w)
      = trace (get_data_from_gcs w "test_bucket_shamik" "User_Journey.csv")).
Proof.
  split; [ | split; [ | split]].
  - intros df s Hs Hn. destruct (apply_numeric_returns s Hn) as [d Hd].
    exists (setitem df "DP013" d). unfold transform_step.
    rewrite Hs. simpl. rewrite Hd. reflexivity.
  - intros df Hl. unfold transform_step, getitem. rewrite Hl. reflexivity.
  - intros df s Hs Hn. unfold transform_step. rewrite Hs. simpl.
    rewrite (apply_not_numeric_raises s Hn). reflexivity.
  - intros w df e Hfetch Hraise.
    assert (Hlift : outcome (IO.lift (transform_step df)) = Raise e)
      by exact Hraise.
    split; unfold main.
    + rewrite (outcome_bind_ok _ _ df Hfetch).
      apply outcome_bind_raise. exact Hlift.
    + rewrite (trace_bind_ok _ _ df Hfetch).
      rewrite (trace_bind_raise _ _ e Hlift).
      unfold IO.lift, trace at 2. simpl. apply app_nil_r.
Qed.

Lemma transform_step_errors_witness :
  (exists df', transform_step journey = Ok df') /\
  transform_step journey_no_duration = Raise (KeyError "calendar_duration") /\
  transform_step journey_text = Raise TypeError /\
  outcome (main (cloud_up journey_text None)) = Raise TypeError /\
  outcome (main (cloud_up journey_no_duration None))
  = Raise (KeyError "calendar_duration").
Proof.
  destruct transform_step_errors as (Hok & Hkey & Htype & Hmain).
  split; [ | split; [ | split; [ | split]]].
  - exact (Hok journey [PyInt 500; PyInt 5000; PyInt 9000] eq_refl eq_refl).
  - exact (Hkey journey_no_duration eq_refl).
  - exact (Htype journey_text [PyInt 500; PyStr "n/a"] eq_refl eq_refl).
  - exact (proj1 (Hmain (cloud_up journey_text None) journey_text TypeError
                    eq_refl eq_refl)).
  - exact (proj1 (Hmain (cloud_up journey_no_duration None) journey_no_duration
                    (KeyError "calendar_duration") eq_refl eq_refl)).
Defined.

(** * Further properties of the code *)

(** ** [dp013]: each score names its bucket *)

Lemma value_cmp_none_nan (r : pyval) (c : Z) :
  numeric r = true -> value_cmp r c = None -> r = PyFloat S754_nan.
Proof.
  destruct r as [z | b | f | s | ]; simpl; intros Hn H; try discriminate.
  destruct f; try discriminate. reflexivity.
Qed.

(** X1.  The three positive scores are given to the numbers of their bucket and
    to nothing else: 10 exactly up to 1800, 7 exactly above 1800 up to
    7200, 5 exactly above 7200 up to 10800. *)
Theorem dp013_buckets_exact (r : pyval) :
  well_formed r -> numeric r = true ->
  (dp013 r = Ok (PyInt 10) <-> num_le r 1800) /\
  (dp013 r = Ok (PyInt 7) <-> num_gt r 1800 /\ num_le r 7200) /\
  (dp013 r = Ok (PyInt 5) <-> num_gt r 7200 /\ num_le r 10800).
Proof.
  intros Hw Hn. rewrite (dp013_by_order r Hw Hn). unfold num_le, num_gt.
  pose proof (value_cmp_gt_mono r 7200 1800 ltac:(lia)) as M1.
  destruct (value_cmp r 1800) as [[ | | ] | ] eqn:E1;
    destruct (value_cmp r 7200) as [[ | | ] | ] eqn:E2;
    destruct (value_cmp r 10800) as [[ | | ] | ] eqn:E3;
    simpl;
    try (specialize (M1 eq_refl));
    intuition (discriminate || congruence).
Qed.

Lemma dp013_buckets_exact_witness :
  num_gt (PyInt 3600) 1800 /\ num_le (PyInt 3600) 7200.
Proof.
  exact (proj1 (proj1 (proj2 (dp013_buckets_exact (PyInt 3600) I eq_refl)))
               eq_refl).
Defined.

(** X2.  Score 0 is given to the numbers above 10800 and to NaN, the value pandas
    puts in a cell whose field was empty, and to nothing else. *)
Theorem dp013_zero_iff (r : pyval) :
  well_formed r -> numeric r = true ->
  (dp013 r = Ok (PyInt 0) <-> num_gt r 10800 \/ r = PyFloat S754_nan).
Proof.
  intros Hw Hn. rewrite (dp013_by_order r Hw Hn). unfold num_gt.
  pose proof (value_cmp_gt_mono r 10800 7200 ltac:(lia)) as M2.
  pose proof (value_cmp_gt_mono r 10800 1800 ltac:(lia)) as M1.
  pose proof (value_cmp_gt_mono r 7200 1800 ltac:(lia)) as M0.
  pose proof (value_cmp_none_nan r 1800 Hn) as N1.
  pose proof (value_cmp_none_nan r 7200 Hn) as N2.
  pose proof (value_cmp_none_nan r 10800 Hn) as N3.
  split.
  - destruct (value_cmp r 1800) as [[ | | ] | ] eqn:E1;
      destruct (value_cmp r 7200) as [[ | | ] | ] eqn:E2;
      destruct (value_cmp r 10800) as [[ | | ] | ] eqn:E3;
      simpl; intros H; try discriminate; auto.
  - intros [H | H].
    + rewrite (M1 H), (M2 H), H. reflexivity.
    + subst r. reflexivity.
Qed.

Lemma dp013_zero_iff_witness :
  dp013 (PyFloat S754_nan) = Ok (PyInt 0) /\
  dp013 (PyInt 86400) = Ok (PyInt 0).
Proof.
  split.
  - exact (proj2 (dp013_zero_iff (PyFloat S754_nan) eq_refl eq_refl)
                 (or_intror eq_refl)).
  - exact (proj2 (dp013_zero_iff (PyInt 86400) I eq_refl) (or_introl eq_refl)).
Defined.

(** X3.  [dp013] raises on the cells that are not numbers and on no other, and
    what it raises is [TypeError]. *)
Theorem dp013_raises_iff (r : pyval) (e : pyexn) :
  dp013 r = Raise e <-> numeric r = false /\ e = TypeError.
Proof.
  split.
  - intros H. destruct (numeric r) eqn:Hn.
    + destruct (dp013_numeric_returns r Hn) as [y Hy]. congruence.
    + rewrite (dp013_not_numeric_raises r Hn) in H. split; congruence.
  - intros [Hn ->]. exact (dp013_not_numeric_raises r Hn).
Qed.

Lemma dp013_int (z : Z) :
  dp013 (PyInt z)
  = Ok (PyInt (if z <=? 1800 then 10
               else if z <=? 7200 then 7
               else if z <=? 10800 then 5 else 0)).
Proof.
  unfold dp013, between, le_int, int_lt, Res.bind.
  destruct (Z.leb_spec z 1800); [reflexivity|].
  destruct (Z.ltb_spec 1800 z); [ | lia].
  destruct (Z.leb_spec z 7200); [reflexivity|].
  destruct (Z.ltb_spec 7200 z); [ | lia].
  destruct (Z.leb_spec z 10800); reflexivity.
Qed.

(** X4.  A longer duration never scores higher: on integers [dp013] is
    decreasing. *)
Theorem dp013_decreasing (z1 z2 a b : Z) :
  z1 <= z2 ->
  dp013 (PyInt z1) = Ok (PyInt a) ->
  dp013 (PyInt z2) = Ok (PyInt b) ->
  b <= a.
Proof.
  intros Hle. rewrite !dp013_int. intros H1 H2.
  apply (f_equal (fun r => match r with Ok (PyInt n) => n | _ => 0 end)) in H1, H2.
  subst a b.
  destruct (Z.leb_spec z1 1800), (Z.leb_spec z1 7200), (Z.leb_spec z1 10800),
           (Z.leb_spec z2 1800), (Z.leb_spec z2 7200), (Z.leb_spec z2 10800);
    lia.
Qed.

Lemma dp013_decreasing_witness : 5 <= 7.
Proof.
  exact (dp013_decreasing 5000 9000 7 5 ltac:(discriminate) eq_refl eq_refl).
Defined.

(** ** The transform step and the rest of the frame *)

Lemma labels_assign (key : string) (s : Series) (cols : list (string * Series)) :
  map fst (assign key s cols)
  = match lookup key cols with
    | Some _ => map fst cols
    | None => (map fst cols ++ [key])%list
    end.
Proof.
  induction cols as [ | [k s'] rest IH]; simpl; [reflexivity|].
  destruct (String.eqb k key) eqn:Hk; simpl; [reflexivity|].
  rewrite IH. destruct (lookup key rest); reflexivity.
Qed.

Lemma lookup_none_not_in (key : string) (cols : list (string * Series)) :
  lookup key cols = None -> ~ In key (map fst cols).
Proof.
  induction cols as [ | [k s'] rest IH]; simpl; intros H; [tauto|].
  destruct (String.eqb k key) eqn:Hk; [discriminate|].
  apply String.eqb_neq in Hk. intros [Heq | Hin]; [exact (Hk Heq) | exact (IH H Hin)].
Qed.

Lemma Forall_assign (P : string * Series -> Prop) (key : string) (s : Series)
    (cols : list (string * Series)) :
  P (key, s) -> Forall P cols -> Forall P (assign key s cols).
Proof.
  intros Hnew. induction cols as [ | [k s'] rest IH]; simpl; intros Hall.
  - constructor; [exact Hnew | constructor].
  - apply Forall_cons_iff in Hall. destruct Hall as [Hhd Htl].
    destruct (String.eqb k key) eqn:Hk.
    + apply String.eqb_eq in Hk. subst k. constructor; assumption.
    + constructor; [exact Hhd | exact (IH Htl)].
Qed.

(** X5.  The transform step touches no column but [DP013]: every other label
    reads after the step as it read before, present or absent. *)
Theorem transform_step_keeps_columns (df df' : DataFrame) (key : string) :
  transform_step df = Ok df' ->
  key <> "DP013" ->
  getitem df' key = getitem df key.
Proof.
  intros H Hne. destruct (transform_step_inv df df' H) as (s & d & _ & _ & ->).
  apply getitem_setitem_other. congruence.
Qed.

Lemma transform_step_keeps_columns_witness :
  getitem (setitem journey "DP013" [PyInt 10; PyInt 7; PyInt 5]) "user_id"
  = getitem journey "user_id".
Proof.
  apply (transform_step_keeps_columns journey
           (setitem journey "DP013" [PyInt 10; PyInt 7; PyInt 5]) "user_id");
    [reflexivity | discriminate].
Defined.

(** X6.  A frame that already has a [DP013] column keeps its labels in their
    order: the column is overwritten where it stands.  Otherwise [DP013]
    becomes the last label and the others keep their order. *)
Theorem transform_step_labels (df df' : DataFrame) :
  transform_step df = Ok df' ->
  labels df' = if has_column df "DP013" then labels df
               else (labels df ++ ["DP013"])%list.
Proof.
  intros H. destruct (transform_step_inv df df' H) as (s & d & _ & _ & ->).
  unfold labels, has_column, setitem. simpl. rewrite labels_assign.
  destruct (lookup "DP013" (columns df)); reflexivity.
Qed.

Lemma transform_step_labels_witness :
  labels (setitem journey "DP013" [PyInt 10; PyInt 7; PyInt 5])
  = ["user_id"; "calendar_duration"; "DP013"] /\
  labels (setitem (mkDataFrame 1 [("DP013", [PyStr "old"]);
                                  ("calendar_duration", [PyInt 60])])
                  "DP013" [PyInt 10])
  = ["DP013"; "calendar_duration"].
Proof.
  split.
  - exact (transform_step_labels journey
             (setitem journey "DP013" [PyInt 10; PyInt 7; PyInt 5]) eq_refl).
  - exact (transform_step_labels
             (mkDataFrame 1 [("DP013", [PyStr "old"]);
                             ("calendar_duration", [PyInt 60])])
             (setitem (mkDataFrame 1 [("DP013", [PyStr "old"]);
                                      ("calendar_duration", [PyInt 60])])
                      "DP013" [PyInt 10])
             eq_refl).
Defined.

(** X7.  The transform step keeps a frame in shape: if every column had the
    length of the index it still has, and if the labels were pairwise
    distinct they still are. *)
Theorem transform_step_keeps_shape (df df' : DataFrame) :
  transform_step df = Ok df' ->
  (aligned df -> aligned df') /\
  (NoDup (labels df) -> NoDup (labels df')).
Proof.
  intros H. destruct (transform_step_inv df df' H) as (s & d & Hs & Hd & ->).
  split.
  - intros Ha. unfold aligned, setitem. simpl.
    apply Forall_assign; [ | exact Ha]. simpl.
    destruct (apply_cells dp013 s d Hd) as [Hlen _].
    rewrite Hlen. exact (lookup_aligned df _ s Ha Hs).
  - intros Hnd. unfold labels, setitem. simpl. rewrite labels_assign.
    destruct (lookup "DP013" (columns df)) eqn:Hl; [exact Hnd|].
    apply NoDup_app; [exact Hnd | constructor; [simpl; tauto | constructor] | ].
    intros k Hin [<- | []]. exact (lookup_none_not_in _ _ Hl Hin).
Qed.

Lemma transform_step_keeps_shape_witness :
  aligned (setitem journey "DP013" [PyInt 10; PyInt 7; PyInt 5]) /\
  NoDup (labels (setitem journey "DP013" [PyInt 10; PyInt 7; PyInt 5])).
Proof.
  destruct (transform_step_keeps_shape journey
              (setitem journey "DP013" [PyInt 10; PyInt 7; PyInt 5]) eq_refl)
    as [Ha Hn].
  split.
  - apply Ha. repeat constructor.
  - apply Hn. repeat constructor; simpl; intuition discriminate.
Defined.

(** X8.  The transform step raises in two ways only: [KeyError] naming
    [calendar_duration] when the frame has no such column, [TypeError] when
    the column is there and one of its cells is not a number. *)
Theorem transform_step_raises_inv (df : DataFrame) (e : pyexn) :
  transform_step df = Raise e ->
  (has_column df "calendar_duration" = false /\
   e = KeyError "calendar_duration") \/
  (exists s, getitem df "calendar_duration" = Ok s /\
             forallb numeric s = false /\ e = TypeError).
Proof.
  unfold transform_step, getitem, has_column.
  destruct (lookup "calendar_duration" (columns df)) as [s | ];
    unfold Res.bind at 1; intros H.
  - right. exists s. split; [reflexivity|].
    destruct (forallb numeric s) eqn:Hn.
    + destruct (apply_numeric_returns s Hn) as [d Hd]. rewrite Hd in H.
      discriminate.
    + rewrite (apply_not_numeric_raises s Hn) in H. unfold Res.bind in H.
      split; congruence.
  - left. split; congruence.
Qed.

Lemma transform_step_raises_inv_witness :
  (has_column journey_text "calendar_duration" = false /\
   TypeError = KeyError "calendar_duration") \/
  (exists s, getitem journey_text "calendar_duration" = Ok s /\
             forallb numeric s = false /\ TypeError = TypeError).
Proof.
  exact (transform_step_raises_inv journey_text TypeError eq_refl).
Defined.

(** ** The fetch *)

Lemma run_eta {A} (m : io A) : m = (trace m, outcome m).
Proof. destruct m; reflexivity. Qed.

Lemma bind_ok {A B} (m : io A) (k : A -> io B) (a : A) :
  outcome m = Ok a ->
  IO.bind m k = ((trace m ++ trace (k a))%list, outcome (k a)).
Proof.
  intros H. rewrite (run_eta (IO.bind m k)).
  now rewrite (trace_bind_ok m k a H), (outcome_bind_ok m k a H).
Qed.

Lemma bind_raise {A B} (m : io A) (k : A -> io B) (e : pyexn) :
  outcome m = Raise e -> IO.bind m k = (trace m, Raise e).
Proof.
  intros H. rewrite (run_eta (IO.bind m k)).
  now rewrite (trace_bind_raise m k e H), (outcome_bind_raise m k e H).
Qed.

(** The four ways [get_data_from_gcs] can go. *)
Lemma get_data_from_gcs_run (w : Cloud) (bucket_name file_name : string) :
  get_data_from_gcs w bucket_name file_name
  = match storage_Client w with
    | Raise e => ([StorageClient], Raise e)
    | Ok _ =>
        match download_as_bytes w bucket_name file_name with
        | Raise e => ([StorageClient; Download bucket_name file_name], Raise e)
        | Ok content =>
            match read_csv w content with
            | Raise e =>
                ([StorageClient; Download bucket_name file_name], Raise e)
            | Ok df =>
                ([StorageClient; Download bucket_name file_name;
                  Print ("Loaded " ++ str_int (len df) ++ " rows from gs://"
                         ++ bucket_name ++ "/" ++ file_name)],
                 Ok df)
            end
        end
    end.
Proof.
  unfold get_data_from_gcs, IO.bind, IO.call, IO.lift, IO.emit, IO.ret.
  destruct (storage_Client w); [ | reflexivity].
  destruct (download_as_bytes w bucket_name file_name) as [content | e];
    [ | reflexivity].
  destruct (read_csv w content); reflexivity.
Qed.

(** X9.  When [get_data_from_gcs] returns a frame, it is the frame [read_csv]
    made of the bytes downloaded for that bucket and path, and the run was:
    one client, one download, then the notice with [len(df)]. *)
Theorem get_data_from_gcs_returns (w : Cloud) (bucket_name file_name : string)
    (df : DataFrame) :
  outcome (get_data_from_gcs w bucket_name file_name) = Ok df ->
  exists content,
    download_as_bytes w bucket_name file_name = Ok content /\
    read_csv w content = Ok df /\
    trace (get_data_from_gcs w bucket_name file_name)
    = [StorageClient; Download bucket_name file_name;
       Print ("Loaded " ++ str_int (len df) ++ " rows from gs://"
              ++ bucket_name ++ "/" ++ file_name)].
Proof.
  rewrite get_data_from_gcs_run.
  destruct (storage_Client w); [ | discriminate].
  destruct (download_as_bytes w bucket_name file_name) as [content | e];
    [ | discriminate].
  destruct (read_csv w content) as [df0 | e] eqn:Hr; [ | discriminate].
  unfold outcome, trace. simpl. intros H. injection H as <-.
  exists content. auto.
Qed.

Lemma get_data_from_gcs_returns_witness :
  exists content,
    download_as_bytes (cloud_up journey None) "b" "f.csv" = Ok content /\
    read_csv (cloud_up journey None) content = Ok journey /\
    trace (get_data_from_gcs (cloud_up journey None) "b" "f.csv")
    = [StorageClient; Download "b" "f.csv";
       Print ("Loaded " ++ str_int (len journey) ++ " rows from gs://"
              ++ "b" ++ "/" ++ "f.csv")].
Proof.
  exact (get_data_from_gcs_returns (cloud_up journey None) "b" "f.csv" journey
           eq_refl).
Defined.

(** X10.  When [get_data_from_gcs] raises, the exception is the one the failing
    service raised, nothing was printed, and the run stopped there: no
    download after a failed client, no second request after a failed
    download or a failed parse. *)
Theorem get_data_from_gcs_fails (w : Cloud) (bucket_name file_name : string)
    (e : pyexn) :
  outcome (get_data_from_gcs w bucket_name file_name) = Raise e ->
  silent (trace (get_data_from_gcs w bucket_name file_name)) /\
  ((storage_Client w = Raise e /\
    trace (get_data_from_gcs w bucket_name file_name) = [StorageClient]) \/
   (download_as_bytes w bucket_name file_name = Raise e /\
    trace (get_data_from_gcs w bucket_name file_name)
    = [StorageClient; Download bucket_name file_name]) \/
   (exists content,
      download_as_bytes w bucket_name file_name = Ok content /\
      read_csv w content = Raise e /\
      trace (get_data_from_gcs w bucket_name file_name)
      = [StorageClient; Download bucket_name file_name])).
Proof.
  rewrite get_data_from_gcs_run.
  destruct (storage_Client w) as [u | e0].
  - destruct (download_as_bytes w bucket_name file_name) as [content | e1].
    + destruct (read_csv w content) as [df | e2] eqn:Hr; [discriminate|].
      unfold outcome, trace. simpl. intros H. injection H as <-.
      split; [reflexivity|]. right. right. exists content. auto.
    + unfold outcome, trace. simpl. intros H. injection H as <-.
      split; [reflexivity|]. right. left. auto.
  - unfold outcome, trace. simpl. intros H. injection H as <-.
    split; [reflexivity|]. left. auto.
Qed.

Lemma get_data_from_gcs_fails_witness :
  silent (trace (get_data_from_gcs cloud_down "b" "f.csv")) /\
  trace (get_data_from_gcs cloud_down "b" "f.csv") = [StorageClient].
Proof.
  destruct (get_data_from_gcs_fails cloud_down "b" "f.csv"
              (ServiceError "unavailable") eq_refl) as [Hs _].
  split; [exact Hs | reflexivity].
Defined.

Lemma get_data_from_gcs_no_warehouse (w : Cloud) (bucket_name file_name : string) :
  filter is_warehouse (trace (get_data_from_gcs w bucket_name file_name)) = [].
Proof.
  rewrite get_data_from_gcs_run.
  destruct (storage_Client w); [ | reflexivity].
  destruct (download_as_bytes w bucket_name file_name) as [content | e];
    [ | reflexivity].
  destruct (read_csv w content); reflexivity.
Qed.

(** ** The load *)

(** The four ways [load_df_to_bq] can go once there are rows. *)
Lemma load_df_to_bq_run (w : Cloud) (d : DataFrame)
    (project dataset table write_disposition : string) :
  let destination := project ++ "." ++ dataset ++ "." ++ table in
  empty d = false ->
  load_df_to_bq w (Some d) project dataset table write_disposition
  = match bigquery_Client w project with
    | Raise e => ([BigQueryClient project], Raise e)
    | Ok _ =>
        match load_table_from_dataframe w d destination write_disposition with
        | Raise e =>
            ([BigQueryClient project;
              LoadTable d destination write_disposition], Raise e)
        | Ok _ =>
            match job_result w d destination write_disposition with
            | Raise e =>
                ([BigQueryClient project;
                  LoadTable d destination write_disposition;
                  JobResult destination], Raise e)
            | Ok _ =>
                let rows :=
                  or_else (output_rows w d destination write_disposition)
                          (len d) in
                ([BigQueryClient project;
                  LoadTable d destination write_disposition;
                  JobResult destination;
                  Print ("Loaded " ++ str_int rows ++ " rows into "
                         ++ destination)],
                 Ok (true, rows))
            end
        end
    end.
Proof.
  intros destination He. unfold load_df_to_bq. rewrite He. fold destination.
  unfold IO.bind, IO.call, IO.emit, IO.ret.
  destruct (bigquery_Client w project); [ | reflexivity].
  destruct (load_table_from_dataframe w d destination write_disposition);
    [ | reflexivity].
  destruct (job_result w d destination write_disposition); reflexivity.
Qed.

Lemma empty_false_len (d : DataFrame) : empty d = false -> len d <> 0.
Proof.
  unfold empty, len. intros H. apply orb_false_elim in H. destruct H as [H _].
  apply Nat.eqb_neq in H. lia.
Qed.

Lemma or_else_nonzero (x : option Z) (y : Z) : y <> 0 -> or_else x y <> 0.
Proof.
  intros Hy. unfold or_else. destruct x as [n | ]; [ | exact Hy].
  destruct (Z.eqb_spec n 0); assumption.
Qed.

(** Ltac for the case analysis on the three answers of the warehouse. *)
Ltac warehouse_cases w d project destination write_disposition :=
  destruct (bigquery_Client w project);
  [ destruct (load_table_from_dataframe w d destination write_disposition);
    [ destruct (job_result w d destination write_disposition) | ] | ].

(** X11.  The row count [load_df_to_bq] returns is 0 exactly when there was
    nothing to load: after a load job it is never 0, whatever the warehouse
    reported. *)
Theorem load_df_to_bq_rows_zero_iff (w : Cloud) (df : option DataFrame)
    (project dataset table write_disposition : string)
    (success : bool) (rows : Z) :
  outcome (load_df_to_bq w df project dataset table write_disposition)
  = Ok (success, rows) ->
  (rows = 0 <-> nothing_to_load df = true).
Proof.
  destruct (nothing_to_load df) eqn:Hn.
  - rewrite (load_df_to_bq_short w df _ _ _ _ Hn). unfold outcome. simpl.
    intros H. injection H as _ <-. tauto.
  - destruct df as [d | ]; [ | discriminate]. simpl in Hn.
    rewrite (load_df_to_bq_run w d project dataset table write_disposition Hn).
    set (destination := project ++ "." ++ dataset ++ "." ++ table).
    warehouse_cases w d project destination write_disposition;
      unfold outcome; simpl; intros H; try discriminate.
    injection H as _ <-.
    pose proof (or_else_nonzero
                  (output_rows w d destination write_disposition) (len d)
                  (empty_false_len d Hn)).
    split; [tauto | discriminate].
Qed.

Lemma load_df_to_bq_rows_zero_iff_witness :
  (3 = 0 <-> nothing_to_load (Some journey) = true) /\
  (0 = 0 <-> nothing_to_load (Some journey_header_only) = true).
Proof.
  split.
  - exact (load_df_to_bq_rows_zero_iff (cloud_up journey (Some 0))
             (Some journey) "p" "d" "t" "WRITE_APPEND" true 3 eq_refl).
  - exact (load_df_to_bq_rows_zero_iff cloud_down
             (Some journey_header_only) "p" "d" "t" "WRITE_APPEND" true 0
             eq_refl).
Defined.

(** X12.  After a load job the count returned is the count the warehouse reported
    whenever that is not 0, also when it differs from [len(df)]; a report of
    0 rows, like no report, is replaced by [len(df)]. *)
Theorem load_df_to_bq_count (w : Cloud) (d : DataFrame)
    (project dataset table write_disposition : string)
    (success : bool) (rows : Z) :
  let reported :=
    output_rows w d (project ++ "." ++ dataset ++ "." ++ table)
                write_disposition in
  empty d = false ->
  outcome (load_df_to_bq w (Some d) project dataset table write_disposition)
  = Ok (success, rows) ->
  (forall n, reported = Some n -> n <> 0 -> rows = n) /\
  (reported = Some 0 \/ reported = None -> rows = len d).
Proof.
  intros reported He.
  rewrite (load_df_to_bq_run w d project dataset table write_disposition He).
  set (destination := project ++ "." ++ dataset ++ "." ++ table) in *.
  warehouse_cases w d project destination write_disposition;
    unfold outcome; simpl; intros H; try discriminate.
  injection H as _ <-. fold reported. split.
  - intros n Hr Hn. rewrite Hr. unfold or_else.
    destruct (Z.eqb_spec n 0); [contradiction | reflexivity].
  - intros [Hr | Hr]; rewrite Hr; reflexivity.
Qed.

Lemma load_df_to_bq_count_witness :
  outcome (load_df_to_bq (cloud_up journey (Some 2)) (Some journey)
             "p" "d" "t" "WRITE_TRUNCATE") = Ok (true, 2) /\
  (forall n, Some 2 = Some n -> n <> 0 -> 2 = n).
Proof.
  split; [reflexivity|].
  exact (proj1 (load_df_to_bq_count (cloud_up journey (Some 2)) journey
                  "p" "d" "t" "WRITE_TRUNCATE" true 2 eq_refl eq_refl)).
Defined.

Lemma load_table_in_trace (w : Cloud) (df : option DataFrame)
    (project dataset table write_disposition : string)
    (d : DataFrame) (destination wd : string) :
  In (LoadTable d destination wd)
     (trace (load_df_to_bq w df project dataset table write_disposition)) ->
  df = Some d /\
  destination = project ++ "." ++ dataset ++ "." ++ table /\
  wd = write_disposition.
Proof.
  destruct (nothing_to_load df) eqn:Hn.
  - rewrite (load_df_to_bq_short w df _ _ _ _ Hn). simpl.
    intros [H | []]. discriminate.
  - destruct df as [d0 | ]; [ | discriminate]. simpl in Hn.
    rewrite (load_df_to_bq_run w d0 project dataset table write_disposition Hn).
    set (dest := project ++ "." ++ dataset ++ "." ++ table).
    warehouse_cases w d0 project dest write_disposition;
      unfold trace; simpl; intros H;
      repeat (destruct H as [H | H]; try discriminate);
      try contradiction;
      injection H as <- <- <-; auto.
Qed.

(** X13.  Whatever load job [load_df_to_bq] submits carries the frame it was
    given, the destination [project.dataset.table] and the write
    disposition of the caller; and it submits one at most: a failed job is
    not tried again. *)
Theorem load_df_to_bq_job (w : Cloud) (df : option DataFrame)
    (project dataset table write_disposition : string) :
  let t := trace (load_df_to_bq w df project dataset table write_disposition) in
  (forall d destination wd,
      In (LoadTable d destination wd) t ->
      df = Some d /\
      destination = project ++ "." ++ dataset ++ "." ++ table /\
      wd = write_disposition) /\
  (List.length (filter is_load_job t) <= 1)%nat.
Proof.
  split.
  - intros d destination wd. apply load_table_in_trace.
  - destruct (nothing_to_load df) eqn:Hn.
    + rewrite (load_df_to_bq_short w df _ _ _ _ Hn). simpl. auto.
    + destruct df as [d0 | ]; [ | discriminate]. simpl in Hn.
      rewrite (load_df_to_bq_run w d0 project dataset table write_disposition Hn).
      set (dest := project ++ "." ++ dataset ++ "." ++ table).
      warehouse_cases w d0 project dest write_disposition;
        unfold trace; simpl; auto.
Qed.

Lemma load_df_to_bq_job_witness :
  Some journey = Some journey /\
  "p.d.t" = "p" ++ "." ++ "d" ++ "." ++ "t" /\
  "WRITE_TRUNCATE" = "WRITE_TRUNCATE".
Proof.
  apply (proj1 (load_df_to_bq_job (cloud_up journey None) (Some journey)
                  "p" "d" "t" "WRITE_TRUNCATE")
               journey "p.d.t" "WRITE_TRUNCATE").
  simpl. right. left. reflexivity.
Defined.

(** X14.  When [load_df_to_bq] raises, there were rows to load, the exception is
    the one the failing warehouse call raised, the run stopped at that call
    and nothing was printed. *)
Theorem load_df_to_bq_fails (w : Cloud) (df : option DataFrame)
    (project dataset table write_disposition : string) (e : pyexn) :
  let destination := project ++ "." ++ dataset ++ "." ++ table in
  let run := load_df_to_bq w df project dataset table write_disposition in
  outcome run = Raise e ->
  silent (trace run) /\
  exists d,
    df = Some d /\ empty d = false /\
    ((bigquery_Client w project = Raise e /\
      trace run = [BigQueryClient project]) \/
     (load_table_from_dataframe w d destination write_disposition = Raise e /\
      trace run = [BigQueryClient project;
                   LoadTable d destination write_disposition]) \/
     (job_result w d destination write_disposition = Raise e /\
      trace run = [BigQueryClient project;
                   LoadTable d destination write_disposition;
                   JobResult destination])).
Proof.
  intros destination run. unfold run.
  destruct (nothing_to_load df) eqn:Hn.
  - rewrite (load_df_to_bq_short w df _ _ _ _ Hn). discriminate.
  - destruct df as [d | ]; [ | discriminate]. simpl in Hn.
    rewrite (load_df_to_bq_run w d project dataset table write_disposition Hn).
    fold destination.
    destruct (bigquery_Client w project) as [u | e0] eqn:Hc.
    + destruct (load_table_from_dataframe w d destination write_disposition)
        as [u1 | e1] eqn:Hl.
      * destruct (job_result w d destination write_disposition)
          as [u2 | e2] eqn:Hj; [discriminate|].
        unfold outcome, trace. simpl. intros H. injection H as <-.
        split; [reflexivity|]. exists d. auto 6.
      * unfold outcome, trace. simpl. intros H. injection H as <-.
        split; [reflexivity|]. exists d. auto 6.
    + unfold outcome, trace. simpl. intros H. injection H as <-.
      split; [reflexivity|]. exists d. auto 6.
Qed.

Lemma load_df_to_bq_fails_witness :
  silent (trace (load_df_to_bq cloud_down (Some journey)
                   "p" "d" "t" "WRITE_APPEND")) /\
  trace (load_df_to_bq cloud_down (Some journey) "p" "d" "t" "WRITE_APPEND")
  = [BigQueryClient "p"].
Proof.
  destruct (load_df_to_bq_fails cloud_down (Some journey)
              "p" "d" "t" "WRITE_APPEND" (ServiceError "unavailable") eq_refl)
    as [Hs _].
  split; [exact Hs | reflexivity].
Defined.

(** ** The script *)

Lemma load_df_to_bq_returns_true (w : Cloud) (df : option DataFrame)
    (project dataset table write_disposition : string) (sr : bool * Z) :
  outcome (load_df_to_bq w df project dataset table write_disposition) = Ok sr ->
  fst sr = true.
Proof.
  destruct (nothing_to_load df) eqn:Hn.
  - rewrite (load_df_to_bq_short w df _ _ _ _ Hn). unfold outcome. simpl.
    intros H. injection H as <-. reflexivity.
  - destruct df as [d | ]; [ | discriminate]. simpl in Hn.
    rewrite (load_df_to_bq_run w d project dataset table write_disposition Hn).
    set (destination := project ++ "." ++ dataset ++ "." ++ table).
    warehouse_cases w d project destination write_disposition;
      unfold outcome; simpl; intros H; try discriminate.
    injection H as <-. reflexivity.
Qed.

Lemma not_in_filtered (f : event -> bool) (t : list event) (ev : event) :
  filter f t = [] -> In ev t -> f ev = false.
Proof.
  intros Hf Hin. destruct (f ev) eqn:Hev; [ | reflexivity].
  assert (Hin' : In ev (filter f t)) by (apply filter_In; split; assumption).
  rewrite Hf in Hin'. destruct Hin'.
Qed.

Lemma main_fetch_raises (w : Cloud) (e : pyexn) :
  outcome (fetch w) = Raise e -> main w = (trace (fetch w), Raise e).
Proof. intros H. unfold main. cbv zeta. exact (bind_raise (fetch w) _ e H). Qed.

Lemma bind_lift_ok {A B} (a : A) (k : A -> io B) :
  IO.bind (IO.lift (Ok a)) k = k a.
Proof. unfold IO.bind, IO.lift. destruct (k a). reflexivity. Qed.

Lemma main_transform_raises (w : Cloud) (df : DataFrame) (e : pyexn) :
  outcome (fetch w) = Ok df -> transform_step df = Raise e ->
  main w = (trace (fetch w), Raise e).
Proof.
  intros Hf Ht. unfold main. cbv zeta.
  rewrite (bind_ok (fetch w) _ df Hf). rewrite Ht.
  unfold IO.lift, IO.bind, trace at 2, outcome. cbn [fst snd].
  now rewrite app_nil_r.
Qed.

(** The script once the fetch and the transform step have gone through. *)
Lemma main_served (w : Cloud) (df df' : DataFrame) :
  outcome (fetch w) = Ok df -> transform_step df = Ok df' ->
  let ld := load_df_to_bq w (Some df') "corded-reality-475215-f8"
              "test_dataset" "test_table3" "WRITE_APPEND" in
  main w
  = match outcome ld with
    | Ok sr =>
        ((trace (fetch w) ++ trace ld
          ++ [Print ("Done: " ++ str_bool (fst sr) ++ " " ++ str_int (snd sr))])%list,
         Ok tt)
    | Raise e => ((trace (fetch w) ++ trace ld)%list, Raise e)
    end.
Proof.
  intros Hf Ht ld. unfold main. cbv zeta.
  rewrite (bind_ok (fetch w) _ df Hf). rewrite Ht, bind_lift_ok.
  change (load_df_to_bq w (Some df') "corded-reality-475215-f8"
            "test_dataset" "test_table3" "WRITE_APPEND") with ld.
  destruct (outcome ld) as [sr | e] eqn:Hl.
  - rewrite (trace_bind_ok ld _ sr Hl), (outcome_bind_ok ld _ sr Hl).
    reflexivity.
  - rewrite (trace_bind_raise ld _ e Hl), (outcome_bind_raise ld _ e Hl).
    reflexivity.
Qed.

(** X15.  When the fetch raises, the script ends with that exception after the
    events of the fetch: nothing is scored and nothing goes to the
    warehouse. *)
Theorem main_fetch_fails (w : Cloud) (e : pyexn) :
  outcome (fetch w) = Raise e ->
  outcome (main w) = Raise e /\
  trace (main w) = trace (fetch w) /\
  filter is_warehouse (trace (main w)) = [].
Proof.
  intros H. rewrite (main_fetch_raises w e H). unfold outcome, trace. simpl.
  repeat split. apply get_data_from_gcs_no_warehouse.
Qed.

Lemma main_fetch_fails_witness :
  outcome (main cloud_down) = Raise (ServiceError "unavailable") /\
  trace (main cloud_down) = [StorageClient].
Proof.
  destruct (main_fetch_fails cloud_down (ServiceError "unavailable") eq_refl)
    as (Ho & Ht & _).
  split; [exact Ho | exact Ht].
Defined.

(** X16.  Every load job the script submits goes to the table
    [corded-reality-475215-f8.test_dataset.test_table3] in append mode, and
    the frame it carries is the fetched frame after the transform step. *)
Theorem main_load_request (w : Cloud) (d : DataFrame) (destination wd : string) :
  In (LoadTable d destination wd) (trace (main w)) ->
  destination = script_destination /\
  wd = "WRITE_APPEND" /\
  exists df, outcome (fetch w) = Ok df /\ transform_step df = Ok d.
Proof.
  intros Hin.
  assert (Hfetch : ~ In (LoadTable d destination wd) (trace (fetch w))).
  { intros Hf.
    pose proof (not_in_filtered is_warehouse _ _
                  (get_data_from_gcs_no_warehouse w script_bucket script_file)
                  Hf) as Hw.
    discriminate. }
  destruct (outcome (fetch w)) as [df | e] eqn:Hf.
  - destruct (transform_step df) as [df' | e] eqn:Ht.
    + rewrite (main_served w df df' Hf Ht) in Hin.
      set (ld := load_df_to_bq w (Some df') "corded-reality-475215-f8"
                   "test_dataset" "test_table3" "WRITE_APPEND") in *.
      assert (Hld : In (LoadTable d destination wd) (trace ld)).
      { destruct (outcome ld) as [sr | e]; unfold trace at 1 in Hin;
          cbn [fst] in Hin; apply in_app_or in Hin;
          destruct Hin as [Hin | Hin]; try contradiction.
        - apply in_app_or in Hin. destruct Hin as [Hin | [Hin | []]];
            [exact Hin | discriminate].
        - exact Hin. }
      destruct (load_table_in_trace w (Some df') _ _ _ _ d destination wd Hld)
        as (Hd & Hdest & Hwd).
      injection Hd as <-.
      split; [exact Hdest | split; [exact Hwd | ]].
      exists df. split; [reflexivity | exact Ht].
    + rewrite (main_transform_raises w df e Hf Ht) in Hin. contradiction.
  - rewrite (main_fetch_raises w e Hf) in Hin. contradiction.
Qed.

Lemma main_load_request_witness :
  "corded-reality-475215-f8.test_dataset.test_table3" = script_destination /\
  "WRITE_APPEND" = "WRITE_APPEND" /\
  exists df, outcome (fetch (cloud_up journey None)) = Ok df /\
             transform_step df
             = Ok (setitem journey "DP013" [PyInt 10; PyInt 7; PyInt 5]).
Proof.
  apply (main_load_request (cloud_up journey None)
           (setitem journey "DP013" [PyInt 10; PyInt 7; PyInt 5])
           "corded-reality-475215-f8.test_dataset.test_table3" "WRITE_APPEND").
  simpl. do 4 right. left. reflexivity.
Defined.

(** X17.  A source with a header and no rows: the script scores nothing, sends
    nothing to the warehouse, prints the empty notice and ends with
    [Done: True 0]. *)
Theorem main_header_only (w : Cloud) (df : DataFrame) :
  outcome (fetch w) = Ok df ->
  index_len df = 0%nat ->
  aligned df ->
  has_column df "calendar_duration" = true ->
  main w
  = ((trace (fetch w) ++ [Print empty_notice; Print "Done: True 0"])%list,
     Ok tt).
Proof.
  intros Hf Hz Ha Hc.
  assert (Hs : getitem df "calendar_duration" = Ok []).
  { unfold has_column in Hc. unfold getitem.
    destruct (lookup "calendar_duration" (columns df)) as [s | ] eqn:Hl;
      [ | discriminate].
    assert (Hlen : List.length s = index_len df).
    { apply (lookup_aligned df "calendar_duration" s Ha).
      unfold getitem. now rewrite Hl. }
    rewrite Hz in Hlen. destruct s; [reflexivity | discriminate]. }
  assert (Ht : transform_step df = Ok (setitem df "DP013" [])).
  { unfold transform_step. rewrite Hs. reflexivity. }
  rewrite (main_served w df _ Hf Ht).
  rewrite (load_df_to_bq_short w (Some (setitem df "DP013" [])));
    [reflexivity | ].
  unfold nothing_to_load, empty, setitem. simpl. rewrite Hz. reflexivity.
Qed.

Lemma main_header_only_witness :
  main (cloud_up journey_header_only None)
  = ([StorageClient; Download script_bucket script_file;
      Print "Loaded 0 rows from gs://test_bucket_shamik/User_Journey.csv";
      Print empty_notice; Print "Done: True 0"],
     Ok tt).
Proof.
  apply (main_header_only (cloud_up journey_header_only None)
           journey_header_only);
    [reflexivity | reflexivity | repeat constructor | reflexivity].
Defined.

(** X18.  When the script ends without an exception, the last thing it printed is
    the [Done:] line, and that line says [True]. *)
Theorem main_done (w : Cloud) :
  outcome (main w) = Ok tt ->
  exists t rows,
    trace (main w) = (t ++ [Print ("Done: True " ++ str_int rows)])%list.
Proof.
  destruct (outcome (fetch w)) as [df | e] eqn:Hf.
  - destruct (transform_step df) as [df' | e] eqn:Ht.
    + rewrite (main_served w df df' Hf Ht).
      set (ld := load_df_to_bq w (Some df') "corded-reality-475215-f8"
                   "test_dataset" "test_table3" "WRITE_APPEND").
      destruct (outcome ld) as [sr | e] eqn:Hl; [ | discriminate].
      intros _.
      pose proof (load_df_to_bq_returns_true w (Some df') _ _ _ _ sr Hl) as Hflag.
      exists (trace (fetch w) ++ trace ld)%list, (snd sr).
      unfold trace at 1. cbn [fst]. rewrite Hflag, app_assoc. reflexivity.
    + rewrite (main_transform_raises w df e Hf Ht). discriminate.
  - rewrite (main_fetch_raises w e Hf). discriminate.
Qed.

Lemma main_done_witness :
  exists t rows,
    trace (main (cloud_up journey (Some 3)))
    = (t ++ [Print ("Done: True " ++ str_int rows)])%list.
Proof.
  exact (main_done (cloud_up journey (Some 3)) eq_refl).
Defined.

Lemma load_raise_silent (w : Cloud) (df : option DataFrame)
    (project dataset table write_disposition : string) (e : pyexn) :
  outcome (load_df_to_bq w df project dataset table write_disposition) = Raise e ->
  filter is_print
    (trace (load_df_to_bq w df project dataset table write_disposition)) = [].
Proof.
  destruct (nothing_to_load df) eqn:Hn.
  - rewrite (load_df_to_bq_short w df _ _ _ _ Hn). discriminate.
  - destruct df as [d | ]; [ | discriminate]. simpl in Hn.
    rewrite (load_df_to_bq_run w d project dataset table write_disposition Hn).
    set (destination := project ++ "." ++ dataset ++ "." ++ table).
    warehouse_cases w d project destination write_disposition;
      unfold outcome, trace; simpl; intros H; try discriminate; reflexivity.
Qed.

(** X19.  When the warehouse fails, the script ends with the exception of the
    warehouse and prints nothing after the notice of the fetch: no [Loaded]
    line for the table and no [Done:] line. *)
Theorem main_load_fails (w : Cloud) (df df' : DataFrame) (e : pyexn) :
  outcome (fetch w) = Ok df ->
  transform_step df = Ok df' ->
  outcome (load_df_to_bq w (Some df') "corded-reality-475215-f8"
             "test_dataset" "test_table3" "WRITE_APPEND") = Raise e ->
  outcome (main w) = Raise e /\
  filter is_print (trace (main w)) = filter is_print (trace (fetch w)).
Proof.
  intros Hf Ht Hl. rewrite (main_served w df df' Hf Ht). rewrite Hl.
  cbv beta iota.
  split; [reflexivity|].
  change (trace (?t, ?r)) with t.
  rewrite filter_app, (load_raise_silent w (Some df') _ _ _ _ e Hl).
  apply app_nil_r.
Qed.

Lemma main_load_fails_witness :
  outcome (main (mkCloud (Ok tt) (fun _ _ => Ok "") (fun _ => Ok journey)
                         (fun _ => Ok tt)
                         (fun _ _ _ => Raise (ServiceError "schema mismatch"))
                         (fun _ _ _ => Ok tt) (fun _ _ _ => None)))
  = Raise (ServiceError "schema mismatch").
Proof.
  exact (proj1 (main_load_fails
                  (mkCloud (Ok tt) (fun _ _ => Ok "") (fun _ => Ok journey)
                           (fun _ => Ok tt)
                           (fun _ _ _ => Raise (ServiceError "schema mismatch"))
                           (fun _ _ _ => Ok tt) (fun _ _ _ => None))
                  journey
                  (setitem journey "DP013" [PyInt 10; PyInt 7; PyInt 5])
                  (ServiceError "schema mismatch")
                  eq_refl eq_refl eq_refl)).
Defined.
